(** * focusDistraction: the tab lister and the history reader

    A shallow embedding of [sample_scripts/chromeCheck.py] and
    [sample_scripts/chromeHistory.py].

    - Python [str] values are Rocq strings read as sequences of code points
      below 256 (Latin-1); [int] is [Z]; [float] is IEEE binary64 as
      specified by [SpecFloat]; the values SQLite hands back are [pyval].
    - A function that prints, touches the file system or raises is a
      computation in the monad [M]: it takes a [world] (files and standard
      output) and gives back the new world with either a value or the
      exception that escaped.
    - What the operating system, SQLite, the clock and the C library decide
      is a [platform]: a record of oracles the functions consult. *)

From Stdlib Require Import ZArith List Lia Bool.
From Stdlib Require Import Strings.String Strings.Ascii.
From Stdlib Require Import Numbers.DecimalString Numbers.DecimalZ Numbers.DecimalN Numbers.DecimalPos.
From Stdlib Require Import Floats.SpecFloat.
From stdpp Require Import base option list gmap strings.

Open Scope string_scope.
Open Scope list_scope.
Open Scope Z_scope.

(** ** Exceptions *)

(** The classes the modelled calls raise.  All of them derive from
    [Exception]; [OperationalError] derives from [DatabaseError]. *)
Inductive exn_class :=
  | TimeoutExpired       (* subprocess *)
  | OperationalError     (* sqlite3 *)
  | DatabaseError        (* sqlite3, other than OperationalError *)
  | FileNotFoundError
  | PermissionError
  | OSError              (* any other OSError *)
  | ValueError
  | TypeError
  | OverflowError
  | OtherException.      (* any other subclass of Exception *)

Record exn := Exn { exn_class_of : exn_class; exn_detail : string }.

Definition exn_class_eqb (a b : exn_class) : bool :=
  match a, b with
  | TimeoutExpired, TimeoutExpired | OperationalError, OperationalError
  | DatabaseError, DatabaseError | FileNotFoundError, FileNotFoundError
  | PermissionError, PermissionError | OSError, OSError
  | ValueError, ValueError | TypeError, TypeError
  | OverflowError, OverflowError | OtherException, OtherException => true
  | _, _ => false
  end.

(** [isinstance e c] for the two classes the handlers name. *)
Definition isinstance (e : exn) (c : exn_class) : bool :=
  exn_class_eqb (exn_class_of e) c.

Inductive result (A : Type) :=
  | Return (a : A)
  | Raise (e : exn).
Arguments Return {A} a.
Arguments Raise {A} e.

Definition result_bind {A B} (r : result A) (k : A -> result B) : result B :=
  match r with
  | Return a => k a
  | Raise e => Raise e
  end.

(** ** The world and the monad of effects *)

(** What [print] wrote: a literal line, or a prefix followed by [str(e)]
    of the exception caught (its text is not rendered). *)
Inductive printed :=
  | Line (s : string)
  | LineExn (prefix : string) (e : exn)
  | LineStr (prefix : string) (s : string).

Record world := World {
  files  : gmap string string;   (* path to contents *)
  stdout : list printed;
}.

Definition M (A : Type) : Type := world -> world * result A.

Definition ret {A} (a : A) : M A := fun w => (w, Return a).

Definition raise {A} (e : exn) : M A := fun w => (w, Raise e).

Definition bind {A B} (m : M A) (k : A -> M B) : M B :=
  fun w =>
    match m w with
    | (w', Return a) => k a w'
    | (w', Raise e) => (w', Raise e)
    end.

Definition lift {A} (r : result A) : M A := fun w => (w, r).

(** [try: body except Exception as e: handler e].  Every class of the model
    is an [Exception], so the dispatch on the class is done by the handler. *)
Definition try_except {A} (body : M A) (handler : exn -> M A) : M A :=
  fun w =>
    match body w with
    | (w', Return a) => (w', Return a)
    | (w', Raise e) => handler e w'
    end.

Declare Scope py_scope.
Delimit Scope py_scope with py.
Notation "x <- m ;; k" := (bind m (fun x => k))
  (at level 100, m at next level, right associativity) : py_scope.
Notation "m ;;; k" := (bind m (fun _ => k))
  (at level 100, right associativity) : py_scope.
Open Scope py_scope.

Definition print (p : printed) : M unit :=
  fun w => (World (files w) (stdout w ++ [p]), Return tt).

(** ** Python values *)

Definition float := spec_float.

Definition prec : Z := 53.
Definition emax : Z := 1024.

(** [float(z)] for an integer that fits: round to nearest, ties to even. *)
Definition float_of_Z (z : Z) : float := binary_normalize prec emax z 0 false.

Inductive pyval :=
  | PyNone
  | PyInt (z : Z)
  | PyFloat (f : float)
  | PyStr (s : string)
  | PyBytes (b : list Byte.byte).

(** Truth value testing: [None], zero of a numeric type, empty text and
    empty bytes are false. *)
Definition truthy (v : pyval) : bool :=
  match v with
  | PyNone => false
  | PyInt z => negb (z =? 0)
  | PyFloat (S754_zero _) => false
  | PyFloat _ => true
  | PyStr s => negb (String.eqb s "")
  | PyBytes b => match b with [] => false | _ => true end
  end.

(** [a / b] on two integers: the quotient correctly rounded to a float;
    [OverflowError] when it is too large, [ZeroDivisionError] (not a case
    here) for a zero divisor. *)
Definition int_truediv (a b : Z) : result float :=
  match a, b with
  | _, Z0 => Raise (Exn OtherException "division by zero")
  | Z0, _ => Return (S754_zero (b <? 0))
  | _, _ =>
      match SFdiv prec emax (S754_finite (a <? 0) (Z.to_pos (Z.abs a)) 0)
                            (S754_finite (b <? 0) (Z.to_pos (Z.abs b)) 0) with
      | S754_infinity _ =>
          Raise (Exn OverflowError "integer division result too large for a float")
      | q => Return q
      end
  end.

(** [v / 1000000] as the two loops write it: true division of a value read
    from the database by the integer literal. *)
Definition truediv_int (v : pyval) (d : Z) : result float :=
  match v with
  | PyInt z => int_truediv z d
  | PyFloat f =>
      if d =? 0 then Raise (Exn OtherException "float division by zero")
      else Return (SFdiv prec emax f (float_of_Z d))
  | PyNone | PyStr _ | PyBytes _ =>
      Raise (Exn TypeError "unsupported operand type(s) for /")
  end.

(** [x - k] for a float [x] and an integer literal [k] that a float holds
    exactly. *)
Definition float_sub_int (x : float) (k : Z) : float :=
  SFsub prec emax x (float_of_Z k).

(** ** Dates and durations *)

(** A naive [datetime]: the microseconds elapsed since 0001-01-01T00:00:00
    on its own (zone-less) time line. *)
Record datetime := Datetime { micros : Z }.

(** A [timedelta], normalised as Python keeps it:
    [0 <= seconds < 86400] and [0 <= microseconds < 1000000]. *)
Record timedelta := Timedelta { days : Z; seconds : Z; microseconds : Z }.

Definition us_per_second : Z := 1000000.
Definition us_per_day : Z := 86400 * us_per_second.

(** [a - b] on two naive datetimes. *)
Definition datetime_sub (a b : datetime) : timedelta :=
  let d := micros a - micros b in
  Timedelta (d / us_per_day) ((d mod us_per_day) / us_per_second) (d mod us_per_second).

(** [timedelta(days=d, seconds=s)] added to a datetime. *)
Definition datetime_add (a : datetime) (d s : Z) : datetime :=
  Datetime (micros a + d * us_per_day + s * us_per_second).

(** *** A reference [datetime.fromtimestamp]

    The interpreter splits the float into whole seconds and a fraction,
    scales the fraction to microseconds in float arithmetic, rounds it half
    to even and refuses seconds outside the 64-bit [time_t]
    ([OverflowError]).  It asks the C library for the local broken-down
    time, which fails when the year does not fit the 32-bit year field
    ([OSError], errno 75), refuses years outside 1..9999 ([ValueError]), and
    repeats both steps for the instant 24 hours earlier, which it probes to
    detect a repeated hour: the instants of 0001-01-01 are therefore
    refused as well.  The zone is given by [utcoffset], the seconds east of
    UTC at an instant. *)

(** Seconds from 0001-01-01 to 1970-01-01. *)
Definition epoch_seconds : Z := 62135596800.
(** Seconds from 0001-01-01 to 10000-01-01. *)
Definition max_seconds : Z := 315537897600.
(** Seconds from 1970-01-01 to the first and the last second whose year,
    counted from 1900, fits a 32-bit [int]. *)
Definition localtime_min : Z := -67768040609740800.
Definition localtime_max : Z := 67768036191676799.
(** The distance of the probe for a repeated hour. *)
Definition max_fold_seconds : Z := 86400.

(** The integer nearest to [m * 2^e] for [m >= 0], ties to even. *)
Definition round_half_even (m e : Z) : Z :=
  if 0 <=? e then m * 2 ^ e
  else
    let d := 2 ^ (- e) in
    let q := m / d in
    let r := m mod d in
    match 2 * r ?= d with
    | Lt => q
    | Gt => q + 1
    | Eq => if Z.even q then q else q + 1
    end.

(** [modf]: the whole part (towards zero) and the fraction of a finite
    float, the fraction being exact. *)
Definition modf (s : bool) (m : positive) (e : Z) : Z * float :=
  if 0 <=? e then (cond_Zopp s (Z.pos m * 2 ^ e), S754_zero s)
  else
    let d := 2 ^ (- e) in
    (cond_Zopp s (Z.pos m / d),
     binary_normalize prec emax (cond_Zopp s (Z.pos m mod d)) e s).

(** The local time of the instant [sec], in seconds from 0001-01-01. *)
Definition posix_localtime (utcoffset : Z -> Z) (sec : Z) : result Z :=
  let l := sec + utcoffset sec in
  if (l <? localtime_min) || (localtime_max <? l)
  then Raise (Exn OSError "[Errno 75] Value too large for defined data type")
  else
    let local := l + epoch_seconds in
    if (local <? 0) || (max_seconds <=? local)
    then Raise (Exn ValueError "year is out of range")
    else Return local.

(** The whole seconds and the microseconds of a finite float. *)
Definition timestamp_seconds (x : float) : Z * Z :=
  match x with
  | S754_finite s m e =>
      let '(intpart, frac) := modf s m e in
      let scaled := SFmul prec emax frac (float_of_Z us_per_second) in
      let us0 :=
        match scaled with
        | S754_finite s' m' e' => cond_Zopp s' (round_half_even (Z.pos m') e')
        | _ => 0
        end in
      if us_per_second <=? us0 then (intpart + 1, us0 - us_per_second)
      else if us0 <? 0 then (intpart - 1, us0 + us_per_second)
      else (intpart, us0)
  | _ => (0, 0)
  end.

Definition posix_fromtimestamp (utcoffset : Z -> Z) (x : float) : result datetime :=
  match x with
  | S754_nan => Raise (Exn ValueError "Invalid value NaN (not a number)")
  | S754_infinity _ => Raise (Exn OverflowError "timestamp out of range for platform time_t")
  | _ =>
      let '(sec, us) := timestamp_seconds x in
      if (sec <? - 2 ^ 63) || (2 ^ 63 <=? sec)
      then Raise (Exn OverflowError "timestamp out of range for platform time_t")
      else
        result_bind (posix_localtime utcoffset sec) (fun local =>
        result_bind (posix_localtime utcoffset (sec - max_fold_seconds)) (fun _ =>
        Return (Datetime (local * us_per_second + us))))
  end.

(** ** The history reader *)

(** One row of the join: the five selected columns, in order. *)
Record row := Row {
  row_url : pyval;
  row_title : pyval;
  row_visit_count : pyval;
  row_visit_time : pyval;
  row_visit_duration : pyval;
}.

(** What [subprocess.run] returns when the child finished in time. *)
Record completed := Completed {
  returncode : Z;
  stdout_text : string;
  stderr_text : string;
}.

(** What the machine decides. *)
Record platform := Platform {
  (* subprocess.run(['osascript', '-e', applescript], capture_output=True,
     text=True, timeout=5): the completed process, or what it raised *)
  osascript : result completed;
  (* sys.get_int_max_str_digits(), 0 when the interpreter has no limit *)
  int_max_str_digits : nat;
  (* os.path.expanduser: what replaces the leading tilde *)
  home : string;
  (* datetime.fromtimestamp in the local zone *)
  fromtimestamp : float -> result datetime;
  (* shutil.copy2 src dst failing: the exception, and the contents the
     destination was left with when it had already been created *)
  copy2_fault : gmap string string -> string -> string -> option (exn * option string);
  (* os.remove failing for a reason other than a missing file *)
  remove_fault : gmap string string -> string -> option exn;
  (* sqlite3.connect(database, uri), cursor.execute(sql, (limit,)) and
     fetchall: the files afterwards and the rows or the exception *)
  sqlite3_fetchall :
    gmap string string -> string -> bool -> string -> Z ->
    gmap string string * result (list row);
}.

Definition LF : string := String (ascii_of_nat 10) "".

Definition os_path_exists (p : string) : M bool :=
  fun w => (w, Return (bool_decide (is_Some (files w !! p)))).

Definition shutil_copy2 (P : platform) (src dst : string) : M unit :=
  fun w =>
    match copy2_fault P (files w) src dst with
    | Some (e, Some partial) => (World (<[dst := partial]> (files w)) (stdout w), Raise e)
    | Some (e, None) => (w, Raise e)
    | None =>
        match files w !! src with
        | Some data => (World (<[dst := data]> (files w)) (stdout w), Return tt)
        | None => (w, Raise (Exn FileNotFoundError src))
        end
    end.

Definition os_remove (P : platform) (p : string) : M unit :=
  fun w =>
    match remove_fault P (files w) p with
    | Some e => (w, Raise e)
    | None =>
        match files w !! p with
        | Some _ => (World (delete p (files w)) (stdout w), Return tt)
        | None => (w, Raise (Exn FileNotFoundError p))
        end
    end.

Definition sqlite3_query (P : platform) (database : string) (uri : bool)
    (sql : string) (limit : Z) : M (list row) :=
  fun w =>
    let '(fs, r) := sqlite3_fetchall P (files w) database uri sql limit in
    (World fs (stdout w), r).

Definition history_path (P : platform) : string :=
  (home P ++ "/Library/Application Support/Google/Chrome/Default/History")%string.

Definition no_title : pyval := PyStr "(No title)".

(** [a or b]. *)
Definition py_or (a b : pyval) : pyval := if truthy a then a else b.

Notation "'let?' x ':=' r 'in' k" := (result_bind r (fun x => k))
  (at level 10, x name, r at level 100, k at level 200) : py_scope.

(** [needle in hay] on two strings. *)
Fixpoint contains (needle hay : string) : bool :=
  String.prefix needle hay ||
  match hay with
  | EmptyString => false
  | String _ rest => contains needle rest
  end.

(** [formatTimeDelta] prints integers with [str]. *)
Definition str_of_Z (z : Z) : string := NilZero.string_of_int (Z.to_int z).

Module chromeHistory.

(** The dictionary appended to [history] for each row. *)
Record entry := Entry {
  url : pyval;
  title : pyval;
  visit_time : option datetime;
  visit_count : pyval;
  duration_seconds : pyval;
}.

(** The text bound to [query] in [getRecentChromeHistoryWAL]. *)
Definition wal_query : string :=
  (LF ++ "        SELECT " ++ LF ++
   "            urls.url," ++ LF ++
   "            urls.title," ++ LF ++
   "            urls.visit_count," ++ LF ++
   "            visits.visit_time," ++ LF ++
   "            visits.visit_duration" ++ LF ++
   "        FROM urls" ++ LF ++
   "        JOIN visits ON urls.id = visits.url" ++ LF ++
   "        ORDER BY visits.visit_time DESC" ++ LF ++
   "        LIMIT ?" ++ LF ++
   "        ")%string.

(** The [if chrome_time: ... else: ...] block of [getRecentChromeHistoryWAL]:
    the value bound to [visit_datetime]. *)
Definition wal_visit_datetime (P : platform) (chrome_time : pyval)
    : result (option datetime) :=
  if truthy chrome_time then
    let? q := truediv_int chrome_time 1000000 in
    let unix_timestamp := float_sub_int q 11644473600 in
    let? dt := fromtimestamp P unix_timestamp in
    Return (Some dt)
  else Return None.

(** The body of the [for row in rows] loop of [getRecentChromeHistoryWAL]:
    the dictionary built from one row. *)
Definition wal_entry (P : platform) (r : row) : result entry :=
  let '(Row url title visit_count chrome_time duration) := r in
  let? visit_datetime := wal_visit_datetime P chrome_time in
  let? secs :=
    (if truthy duration then
       let? q := truediv_int duration 1000000 in Return (PyFloat q)
     else Return (PyInt 0)) in
  Return (Entry url (py_or title no_title) visit_datetime visit_count secs).

Fixpoint wal_loop (P : platform) (rows : list row) (history : list entry)
    : result (list entry) :=
  match rows with
  | [] => Return history
  | r :: rest =>
      let? e := wal_entry P r in
      wal_loop P rest (history ++ [e])
  end.

(** [f"file:{history_path}?mode=ro"]. *)
Definition db_uri (P : platform) : string :=
  ("file:" ++ history_path P ++ "?mode=ro")%string.

Definition getRecentChromeHistoryWAL (P : platform) (limit : Z) : M (list entry) :=
  let history_path := history_path P in
  found <- os_path_exists history_path ;;
  if negb found then
    print (Line "Chrome history database not found") ;;;
    ret []
  else
    try_except
      (rows <- sqlite3_query P (db_uri P) true wal_query limit ;;
       history <- lift (wal_loop P rows []) ;;
       (* conn.close() *)
       ret history)
      (fun e =>
         if isinstance e OperationalError then
           print (LineExn "Database error (Chrome might be using it): " e) ;;;
           ret []
         else
           print (LineExn "Error reading Chrome history: " e) ;;;
           ret []).

(** The text bound to [query] in [getRecentChromeHistoryCopy]. *)
Definition copy_query : string :=
  (LF ++ "        SELECT " ++ LF ++
   "            urls.url," ++ LF ++
   "            urls.title," ++ LF ++
   "            urls.visit_count," ++ LF ++
   "            visits.visit_time," ++ LF ++
   "            visits.visit_duration" ++ LF ++
   "        FROM urls" ++ LF ++
   "        JOIN visits ON urls.id = visits.url" ++ LF ++
   "        ORDER BY visits.visit_time DESC" ++ LF ++
   "        LIMIT ?" ++ LF ++
   "        ")%string.

(** The [if chrome_time: ... else: ...] block of [getRecentChromeHistoryCopy]:
    the value bound to [visit_datetime]. *)
Definition copy_visit_datetime (P : platform) (chrome_time : pyval)
    : result (option datetime) :=
  if truthy chrome_time then
    let? q := truediv_int chrome_time 1000000 in
    let unix_timestamp := float_sub_int q 11644473600 in
    let? dt := fromtimestamp P unix_timestamp in
    Return (Some dt)
  else Return None.

(** The body of the loop of [getRecentChromeHistoryCopy]. *)
Definition copy_entry (P : platform) (r : row) : result entry :=
  let '(Row url title visit_count chrome_time duration) := r in
  let? visit_datetime := copy_visit_datetime P chrome_time in
  let? secs :=
    (if truthy duration then
       let? q := truediv_int duration 1000000 in Return (PyFloat q)
     else Return (PyInt 0)) in
  Return (Entry url (py_or title no_title) visit_datetime visit_count secs).

Fixpoint copy_loop (P : platform) (rows : list row) (history : list entry)
    : result (list entry) :=
  match rows with
  | [] => Return history
  | r :: rest =>
      let? e := copy_entry P r in
      copy_loop P rest (history ++ [e])
  end.

Definition temp_path : string := "/tmp/chrome_history_copy.db".

Definition temp_journal : string := (temp_path ++ "-journal")%string.

(** The suite of the [try] of [getRecentChromeHistoryCopy]. *)
Definition copy_try (P : platform) (limit : Z) : M (list entry) :=
  shutil_copy2 P (history_path P) temp_path ;;;
  let journal_path := (history_path P ++ "-journal")%string in
  has_journal <- os_path_exists journal_path ;;
  (if has_journal
   then shutil_copy2 P journal_path temp_journal
   else ret tt) ;;;
  rows <- sqlite3_query P temp_path false copy_query limit ;;
  history <- lift (copy_loop P rows []) ;;
  (* conn.close() *)
  os_remove P temp_path ;;;
  left_over <- os_path_exists temp_journal ;;
  (if left_over then os_remove P temp_journal else ret tt) ;;;
  ret history.

(** The suite of its [except Exception as e]. *)
Definition copy_except (P : platform) (e : exn) : M (list entry) :=
  print (LineExn "Error reading Chrome history: " e) ;;;
  still_there <- os_path_exists temp_path ;;
  (if still_there then os_remove P temp_path else ret tt) ;;;
  ret [].

Definition getRecentChromeHistoryCopy (P : platform) (limit : Z) : M (list entry) :=
  found <- os_path_exists (history_path P) ;;
  if negb found then
    print (Line "Chrome history database not found") ;;;
    ret []
  else
    try_except (copy_try P limit) (copy_except P).

(** [formatTimeDelta], with the reading of [datetime.now()] it takes. *)
Definition formatTimeDelta (now : datetime) (visit_datetime : option datetime) : string :=
  match visit_datetime with
  | None => "Unknown time"
  | Some visit =>
      let delta := datetime_sub now visit in
      if seconds delta <? 60 then
        (str_of_Z (seconds delta) ++ " seconds ago")%string
      else if seconds delta <? 3600 then
        (str_of_Z (seconds delta / 60) ++ " minutes ago")%string
      else if days delta =? 0 then
        (str_of_Z (seconds delta / 3600) ++ " hours ago")%string
      else
        (str_of_Z (days delta) ++ " days ago")%string
  end.

Definition distracting_domains : list string :=
  ["youtube.com"; "reddit.com"; "twitter.com"; "instagram.com"].

(** [domain in entry['url']]: a substring test on text, a [TypeError] on
    anything else a column can hold. *)
Definition domain_in (domain : string) (u : pyval) : result bool :=
  match u with
  | PyStr s => Return (contains domain s)
  | PyBytes _ => Raise (Exn TypeError "a bytes-like object is required, not 'str'")
  | PyNone | PyInt _ | PyFloat _ => Raise (Exn TypeError "argument is not iterable")
  end.

(** [any(domain in entry['url'] for domain in domains)]. *)
Fixpoint any_domain_in (u : pyval) (domains : list string) : result bool :=
  match domains with
  | [] => Return false
  | d :: rest =>
      let? hit := domain_in d u in
      if hit then Return true else any_domain_in u rest
  end.

(** The comprehension bound to [recent_distractions] in the script body. *)
Fixpoint recent_distractions (history : list entry) : result (list entry) :=
  match history with
  | [] => Return []
  | e :: rest =>
      let? keep := any_domain_in (url e) distracting_domains in
      let? tail := recent_distractions rest in
      Return (if keep then e :: tail else tail)
  end.

End chromeHistory.

(** ** Text *)

(** [str.isspace] on the code points below 256. *)
Definition is_space (c : ascii) : bool :=
  let n := N_of_ascii c in
  ((9 <=? n) && (n <=? 13) || (28 <=? n) && (n <=? 32) || (n =? 133) || (n =? 160))%N.

(** [s.lstrip()]. *)
Fixpoint lstrip (s : string) : string :=
  match s with
  | EmptyString => EmptyString
  | String c rest => if is_space c then lstrip rest else s
  end.

(** [s.rstrip()]. *)
Fixpoint rstrip (s : string) : string :=
  match s with
  | EmptyString => EmptyString
  | String c rest =>
      match rstrip rest with
      | EmptyString => if is_space c then EmptyString else String c EmptyString
      | kept => String c kept
      end
  end.

(** [s.strip()]. *)
Definition strip (s : string) : string := rstrip (lstrip s).

(** [s.split(sep)] for a separator of one character: never empty, one more
    field than there are separators. *)
Fixpoint split (sep : ascii) (s : string) : list string :=
  match s with
  | EmptyString => [EmptyString]
  | String c rest =>
      if Ascii.eqb c sep then EmptyString :: split sep rest
      else
        match split sep rest with
        | field :: fields => String c field :: fields
        | [] => [String c EmptyString]
        end
  end.

(** *** [int(text)]

    The interpreter first turns the white space above 126 into blanks,
    then reads: blanks (tab to carriage return, and space), a sign, digits
    with single underscores between them, blanks, the end.  Past
    [int_max_str_digits] digits it refuses. *)

Definition is_int_space (c : ascii) : bool :=
  let n := N_of_ascii c in
  ((9 <=? n) && (n <=? 13) || (n =? 32) || (n =? 133) || (n =? 160))%N.

Fixpoint all_int_space (s : string) : bool :=
  match s with
  | EmptyString => true
  | String c rest => is_int_space c && all_int_space rest
  end.

Fixpoint skip_int_space (s : string) : string :=
  match s with
  | EmptyString => EmptyString
  | String c rest => if is_int_space c then skip_int_space rest else s
  end.

Definition digit_value (c : ascii) : option Z :=
  let n := N_of_ascii c in
  if ((48 <=? n) && (n <=? 57))%N then Some (Z.of_N n - 48) else None.

(** The digits and underscores, then the trailing blanks: the value read
    and the number of digits, [None] on a syntax error.  [prev_us] tells
    that the previous character was an underscore. *)
Fixpoint scan_digits (s : string) (acc : Z) (ndigits : nat) (prev_us : bool)
    : option (Z * nat) :=
  match s with
  | EmptyString => if prev_us then None else Some (acc, ndigits)
  | String c rest =>
      match digit_value c with
      | Some d => scan_digits rest (10 * acc + d) (S ndigits) false
      | None =>
          if Ascii.eqb c "_" then
            if prev_us then None else scan_digits rest acc ndigits true
          else if prev_us then None
          else if all_int_space s then Some (acc, ndigits)
          else None
      end
  end.

Definition str_digits_check_threshold : nat := 640.

Definition invalid_literal (s : string) : exn := Exn ValueError s.

(** The test on the number of digits of a literal: the limit bites above
    the threshold only, and only when it is set. *)
Definition digits_allowed (P : platform) (ndigits : nat) : bool :=
  negb ((str_digits_check_threshold <? ndigits)%nat
        && (0 <? int_max_str_digits P)%nat
        && (int_max_str_digits P <? ndigits)%nat).

Definition py_int (P : platform) (s : string) : result Z :=
  let body := skip_int_space s in
  let '(negative, body) :=
    match body with
    | String "+" rest => (false, rest)
    | String "-" rest => (true, rest)
    | _ => (false, body)
    end in
  match body with
  | EmptyString => Raise (invalid_literal s)
  | String c _ =>
      match digit_value c with
      | None => Raise (invalid_literal s)
      | Some _ =>
          match scan_digits body 0 0 false with
          | None => Raise (invalid_literal s)
          | Some (v, n) =>
              if digits_allowed P n
              then Return (if negative then - v else v)
              else Raise (Exn ValueError "Exceeds the limit for integer string conversion")
          end
      end
  end.

Module chromeCheck.

(** The dictionary appended to [tabs] for each line. *)
Record tab := Tab {
  url : string;
  title : string;
  window : Z;
}.

(** The [for line in ...] loop of [getCurrentChromeTabs]. *)
Fixpoint tabs_loop (P : platform) (lines : list string) (tabs : list tab)
    : result (list tab) :=
  match lines with
  | [] => Return tabs
  | line :: rest =>
      if negb (String.eqb line "") then
        match split "|" line with
        | [part0; part1; part2] =>
            let? w := py_int P part2 in
            tabs_loop P rest (tabs ++ [Tab part0 part1 w])
        | _ => tabs_loop P rest tabs
        end
      else tabs_loop P rest tabs
  end.

Definition getCurrentChromeTabs (P : platform) : M (list tab) :=
  try_except
    (result <- lift (osascript P) ;;
     if negb (returncode result =? 0) then
       print (LineStr "AppleScript error: " (stderr_text result)) ;;;
       ret []
     else
       tabs <- lift (tabs_loop P (split "010" (strip (stdout_text result))) []) ;;
       ret tabs)
    (fun e =>
       if isinstance e TimeoutExpired then
         print (Line "Chrome query timed out") ;;;
         ret []
       else
         print (LineExn "Error getting Chrome tabs: " e) ;;;
         ret []).

Definition distracting_domains : list string :=
  ["youtube.com"; "reddit.com"; "twitter.com"; "instagram.com"].

(** The comprehension bound to [distractions] in the script body. *)
Definition distractions (tabs : list tab) : list tab :=
  List.filter
    (fun tab => existsb (fun domain => contains domain (url tab)) distracting_domains)
    tabs.

End chromeCheck.

(** ** A machine to run the functions on

    Home is [/Users/me], the zone is UTC, the interpreter limits integer
    literals to 4300 digits, no file operation fails for a reason of its
    own, and SQLite leaves the files alone. *)

Definition demo_platform (run : result completed) (fetch : result (list row)) : platform :=
  {| osascript := run;
     int_max_str_digits := 4300;
     home := "/Users/me";
     fromtimestamp := posix_fromtimestamp (fun _ => 0);
     copy2_fault := fun _ _ _ => None;
     remove_fault := fun _ _ => None;
     sqlite3_fetchall := fun fs _ _ _ _ => (fs, fetch) |}.

(** ** Vocabulary of the statements *)

(** [f] applied to each element in turn, stopping at the first exception. *)
Fixpoint traverse {A B} (f : A -> result B) (l : list A) : result (list B) :=
  match l with
  | [] => Return []
  | a :: rest =>
      let? b := f a in
      let? bs := traverse f rest in
      Return (b :: bs)
  end.

(** The list a caller sees from a loop that either finished or raised
    inside a handler returning the empty list. *)
Definition or_empty {A} (r : result (list A)) : list A :=
  match r with
  | Return l => l
  | Raise _ => []
  end.

(** Running [m] from [w] ends in a world and a value satisfying [Q], or in
    a world and an exception satisfying [QE]. *)
Definition wp {A} (m : M A) (Q : world -> A -> Prop) (QE : world -> exn -> Prop)
    (w : world) : Prop :=
  match m w with
  | (w', Return a) => Q w' a
  | (w', Raise e) => QE w' e
  end.

(** A path does not exist. *)
Definition absent (p : string) (w : world) : Prop := files w !! p = None.

(** [needle] occurs in [hay]. *)
Definition Substring (needle hay : string) : Prop :=
  exists before after, hay = (before ++ needle ++ after)%string.

(** [kept] is [l] with exactly the elements satisfying [keep] left in, in
    their order. *)
Inductive Selected {A} (keep : A -> Prop) : list A -> list A -> Prop :=
  | Selected_nil : Selected keep [] []
  | Selected_keep x l kept :
      keep x -> Selected keep l kept -> Selected keep (x :: l) (x :: kept)
  | Selected_drop x l kept :
      ~ keep x -> Selected keep l kept -> Selected keep (x :: l) kept.

(** A URL mentions one of the domains. *)
Definition Distracting (domains : list string) (u : string) : Prop :=
  exists d, In d domains /\ Substring d u.

(** Every character of a string passes a test. *)
Fixpoint string_forall (test : ascii -> bool) (s : string) : bool :=
  match s with
  | EmptyString => true
  | String c rest => test c && string_forall test rest
  end.

(** A character does not occur in a string. *)
Definition free_of (c : ascii) (s : string) : bool :=
  string_forall (fun c' => negb (Ascii.eqb c' c)) s.

Definition all_space (s : string) : bool := string_forall is_space s.

(** The characters [str] writes an integer with. *)
Definition is_decimal_char (c : ascii) : bool :=
  match digit_value c with
  | Some _ => true
  | None => Ascii.eqb c "-"
  end.

(** The line the AppleScript writes for one tab, without its newline:
    [(tabURL of tabInfo) & "|" & (tabTitle of tabInfo) & "|" & (windowNum of tabInfo)]. *)
Definition tab_line (t : chromeCheck.tab) : string :=
  (chromeCheck.url t ++ "|" ++ chromeCheck.title t ++ "|"
     ++ str_of_Z (chromeCheck.window t))%string.

(** A line of the automation output: one written for a tab, or anything
    else. *)
Inductive output_line :=
  | TabLine (t : chromeCheck.tab)
  | OtherLine (s : string).

Definition line_text (l : output_line) : string :=
  match l with
  | TabLine t => tab_line t
  | OtherLine s => s
  end.

(** The output: every line followed by a newline. *)
Fixpoint output_text (ls : list output_line) : string :=
  match ls with
  | [] => EmptyString
  | l :: rest => (line_text l ++ LF ++ output_text rest)%string
  end.

Fixpoint tabs_of (ls : list output_line) : list chromeCheck.tab :=
  match ls with
  | [] => []
  | TabLine t :: rest => t :: tabs_of rest
  | OtherLine _ :: rest => tabs_of rest
  end.

(** A tab the delimiters cannot split: no bar and no newline in the URL
    and the title. *)
Definition delimiter_free (t : chromeCheck.tab) : bool :=
  free_of "|" (chromeCheck.url t) && free_of "010" (chromeCheck.url t)
  && free_of "|" (chromeCheck.title t) && free_of "010" (chromeCheck.title t).

(** What the round trip asks of a line: of a tab line, fields free of
    delimiters, a URL that [strip] leaves alone at the front and an index
    [int] accepts; of any other line, a number of fields other than three. *)
Definition well_formed_line (P : platform) (l : output_line) : bool :=
  match l with
  | TabLine t =>
      delimiter_free t
      && String.eqb (lstrip (chromeCheck.url t)) (chromeCheck.url t)
      && digits_allowed P (String.length (str_of_Z (Z.abs (chromeCheck.window t))))
  | OtherLine s =>
      free_of "010" s && negb (length (split "|" s) =? 3)%nat
  end.

(** An entry's URL is text. *)
Definition url_is_text (e : chromeHistory.entry) : Prop :=
  exists s, chromeHistory.url e = PyStr s.

(** An entry's URL is text that mentions one of the domains. *)
Definition distracting_entry (e : chromeHistory.entry) : Prop :=
  exists s, chromeHistory.url e = PyStr s
            /\ Distracting chromeHistory.distracting_domains s.

Definition distracting_tab (t : chromeCheck.tab) : Prop :=
  Distracting chromeCheck.distracting_domains (chromeCheck.url t).

(** ** Inputs the statements are run on *)

Definition empty_world : world := World ∅ [].

Definition demo_home_history : string :=
  "/Users/me/Library/Application Support/Google/Chrome/Default/History".

(** A profile with a history store and its journal. *)
Definition demo_world : world :=
  World (<[ demo_home_history := "store" ]>
         (<[ (demo_home_history ++ "-journal")%string := "journal" ]> ∅)) [].

Definition no_process : result completed :=
  Raise (Exn FileNotFoundError "osascript").

Definition demo_rows : list row :=
  [ Row (PyStr "https://www.youtube.com/watch") (PyStr "Video") (PyInt 3)
        (PyInt 13350000000000000) (PyInt 2500000);
    Row (PyStr "https://example.org/") PyNone (PyInt 1) (PyInt 0) PyNone;
    Row (PyStr "https://reddit.com/r/coq") (PyStr "") (PyInt 7) PyNone (PyInt 0) ].

Definition healthy_store : platform := demo_platform no_process (Return demo_rows).

(** A store SQLite refuses to read. *)
Definition broken_store : platform :=
  demo_platform no_process (Raise (Exn DatabaseError "file is not a database")).

(** A single visit stamped 0. *)
Definition zero_row : row :=
  Row (PyStr "https://example.org/") (PyStr "Example") (PyInt 1) (PyInt 0) (PyInt 0).

Definition zero_store : platform := demo_platform no_process (Return [zero_row]).

Definition zero_entry : chromeHistory.entry :=
  chromeHistory.Entry (PyStr "https://example.org/") (PyStr "Example") None (PyInt 1) (PyInt 0).

(** 2024-01-17T21:20:00. *)
Definition demo_visit : datetime := Datetime 63841123200000000.

Definition demo_history : list chromeHistory.entry :=
  [ chromeHistory.Entry (PyStr "https://www.youtube.com/watch") (PyStr "Video")
      (Some demo_visit) (PyInt 3) (PyFloat (S754_finite false 5629499534213120 (-51)));
    chromeHistory.Entry (PyStr "https://example.org/") no_title None (PyInt 1) (PyInt 0);
    chromeHistory.Entry (PyStr "https://reddit.com/r/coq") no_title None (PyInt 7) (PyInt 0) ].

Definition demo_tabs : list chromeCheck.tab :=
  [ chromeCheck.Tab "https://www.youtube.com/watch" "Video" 1;
    chromeCheck.Tab "https://example.org/" "Example" 1;
    chromeCheck.Tab "https://old.reddit.com/r/coq" "Coq" 2 ].

(** A machine whose automation layer answered [text] with status 0. *)
Definition answering (text : string) : platform :=
  demo_platform (Return (Completed 0 text "")) (Return []).

Definition demo_lines : list output_line :=
  [ TabLine (chromeCheck.Tab "https://www.youtube.com/watch" "Video" 1);
    OtherLine "a line | of four | fields | here";
    TabLine (chromeCheck.Tab "https://example.org/" "" 2);
    OtherLine "" ].

(** A tab whose URL begins with a blank. *)
Definition blank_tab : chromeCheck.tab := chromeCheck.Tab " a" "b" 1.

(** Two lines, the second with a window index that is not a number. *)
Definition bad_index_text : string :=
  ("https://example.org/|Example|1" ++ LF ++ "https://example.com/|Other|two" ++ LF)%string.

(** A scratch file left by another user: it can be neither overwritten
    nor removed. *)
Definition foreign_scratch : platform :=
  {| osascript := no_process;
     int_max_str_digits := 4300;
     home := "/Users/me";
     fromtimestamp := posix_fromtimestamp (fun _ => 0);
     copy2_fault := fun _ _ _ => Some (Exn PermissionError "/tmp/chrome_history_copy.db", None);
     remove_fault := fun _ _ => Some (Exn PermissionError "/tmp/chrome_history_copy.db");
     sqlite3_fetchall := fun fs _ _ _ _ => (fs, Return []) |}.

Definition foreign_scratch_world : world :=
  World (<[ chromeHistory.temp_path := "theirs" ]> (files demo_world)) [].


(** ** The rest of the script bodies *)

(** What [next] raises on an exhausted generator. *)
Definition StopIteration : exn := Exn OtherException "StopIteration".

(** [next(d for d in domains if d in u)]: the first domain found in [u]. *)
Fixpoint next_domain_in (u : pyval) (domains : list string) : result string :=
  match domains with
  | [] => Raise StopIteration
  | d :: rest =>
      let? hit := chromeHistory.domain_in d u in
      if hit then Return d else next_domain_in u rest
  end.

(** The value bound to [domain] in the loop over [recent_distractions]. *)
Definition distraction_domain (entry : chromeHistory.entry) : result string :=
  next_domain_in (chromeHistory.url entry) chromeHistory.distracting_domains.

(** ** More vocabulary *)

(** [history] is what one of the two strategies returned from [w] when the
    query gave [rows]. *)
Definition read_by (P : platform) (limit : Z) (w : world) (rows : list row)
    (history : list chromeHistory.entry) : Prop :=
  (snd (sqlite3_fetchall P (files w) (chromeHistory.db_uri P) true
          chromeHistory.wal_query limit) = Return rows
   /\ snd (chromeHistory.getRecentChromeHistoryWAL P limit w) = Return history)
  \/ ((forall fs, snd (sqlite3_fetchall P fs chromeHistory.temp_path false
                        chromeHistory.copy_query limit) = Return rows)
      /\ snd (chromeHistory.getRecentChromeHistoryCopy P limit w) = Return history).

(** The files as the query of the copy strategy finds them when the two
    copies went through: the scratch copy holds [data], and the scratch
    journal the journal, if there is one. *)
Definition scratch_files (P : platform) (fs : gmap string string) (data : string)
    : gmap string string :=
  let fs1 := <[chromeHistory.temp_path := data]> fs in
  match fs1 !! (history_path P ++ "-journal")%string with
  | Some journal => <[chromeHistory.temp_journal := journal]> fs1
  | None => fs1
  end.

(** No copy and no removal fails for a reason of its own. *)
Definition no_file_fault (P : platform) : Prop :=
  (forall fs src dst, copy2_fault P fs src dst = None)
  /\ (forall fs p, remove_fault P fs p = None).

(** The database engine leaves the files as they are. *)
Definition sqlite_keeps_files (P : platform) : Prop :=
  forall fs database uri sql limit,
    fst (sqlite3_fetchall P fs database uri sql limit) = fs.

(** A delay of [s] whole seconds and [us] microseconds. *)
Definition later (v : datetime) (s us : Z) : datetime :=
  Datetime (micros v + s * us_per_second + us).

(** A row whose timestamp column holds text. *)
Definition text_time_row : row :=
  Row (PyStr "https://example.net/") (PyStr "Net") (PyInt 2) (PyStr "yesterday") (PyInt 5).

Definition text_time_store : platform :=
  demo_platform no_process (Return (demo_rows ++ [text_time_row])).

(** A store SQLite finds locked. *)
Definition locked_store : platform :=
  demo_platform no_process (Raise (Exn OperationalError "database is locked")).


(** An entry whose URL column was NULL. *)
Definition null_url_entry : chromeHistory.entry :=
  chromeHistory.Entry PyNone no_title None (PyInt 1) (PyInt 0).

(** A tab whose title holds a bar. *)
Definition bar_title_tab : chromeCheck.tab :=
  chromeCheck.Tab "https://example.org/" "Docs | Example" 1.

(** ** The two strategies under stated conditions *)

(** The two ways of reading the store. *)
Inductive strategy := Direct | ViaCopy.

Definition recent_history (s : strategy) : platform -> Z -> M (list chromeHistory.entry) :=
  match s with
  | Direct => chromeHistory.getRecentChromeHistoryWAL
  | ViaCopy => chromeHistory.getRecentChromeHistoryCopy
  end.

(** Strategy [s], called in [w], is handed [rows]: the store exists and the
    query the strategy sends is answered with [rows].  For the copy
    strategy, moreover, no copy and no removal fails, and the engine leaves
    the files as the two copies made them. *)
Definition reads_rows (s : strategy) (P : platform) (limit : Z) (w : world)
    (rows : list row) : Prop :=
  match s with
  | Direct =>
      is_Some (files w !! history_path P)
      /\ snd (sqlite3_fetchall P (files w) (chromeHistory.db_uri P) true
                chromeHistory.wal_query limit) = Return rows
  | ViaCopy =>
      exists data,
        files w !! history_path P = Some data
        /\ no_file_fault P
        /\ sqlite3_fetchall P (scratch_files P (files w) data) chromeHistory.temp_path false
             chromeHistory.copy_query limit
           = (scratch_files P (files w) data, Return rows)
  end.

(** Building the entry of the row raises nothing, in either loop. *)
Definition row_converts (P : platform) (r : row) : bool :=
  match chromeHistory.wal_entry P r, chromeHistory.copy_entry P r with
  | Return _, Return _ => true
  | _, _ => false
  end.

(** The machine [P] with another database engine. *)
Definition with_engine (P : platform)
    (engine : gmap string string -> string -> bool -> string -> Z
              -> gmap string string * result (list row)) : platform :=
  {| osascript := osascript P;
     int_max_str_digits := int_max_str_digits P;
     home := home P;
     fromtimestamp := fromtimestamp P;
     copy2_fault := copy2_fault P;
     remove_fault := remove_fault P;
     sqlite3_fetchall := engine |}.

(** An engine that gives [demo_rows] for the scratch copy and, handed any
    other database, wipes every file and raises. *)
Definition scratch_only_engine (fs : gmap string string) (database : string) (uri : bool)
    (sql : string) (limit : Z) : gmap string string * result (list row) :=
  if String.eqb database chromeHistory.temp_path
  then (fs, Return demo_rows)
  else (∅, Raise (Exn DatabaseError "unable to open database file")).

(** * Properties *)

(** ** The embedding on small inputs *)

Example strip_both_ends : strip "  a b  " = "a b".
Proof. reflexivity. Qed.

Example split_keeps_empty_fields : split "|" "a||b|" = ["a"; ""; "b"; ""].
Proof. reflexivity. Qed.

Example split_empty : split "010" "" = [""].
Proof. reflexivity. Qed.

Example int_accepts_blanks_and_underscores :
  py_int healthy_store " 1_000 " = Return 1000 /\ py_int healthy_store "-7" = Return (-7).
Proof. split; reflexivity. Qed.

Example int_refuses_words_and_fractions :
  py_int healthy_store "two" = Raise (invalid_literal "two")
  /\ py_int healthy_store "1.0" = Raise (invalid_literal "1.0")
  /\ py_int healthy_store "" = Raise (invalid_literal "").
Proof. repeat split. Qed.

(** 13350000000000000 microseconds after 1601 is 2024-01-17T21:20:00. *)
Example conversion_of_whole_seconds :
  chromeHistory.wal_visit_datetime healthy_store (PyInt 13350000000000000)
  = Return (Some demo_visit).
Proof. vm_compute. reflexivity. Qed.

(** The quotient is a binary64 float: one microsecond after the vendor
    epoch comes out as two. *)
Example conversion_rounds_in_binary64 :
  chromeHistory.wal_visit_datetime healthy_store (PyInt 1)
  = Return (Some (Datetime (50491123200 * 1000000 + 2))).
Proof. vm_compute. reflexivity. Qed.

(** A timestamp past the year 9999 makes [fromtimestamp] raise, and the
    whole call return the empty list. *)
Example conversion_out_of_range :
  exists e, chromeHistory.wal_visit_datetime healthy_store (PyInt (2 ^ 63 - 1)) = Raise e.
Proof. eexists. vm_compute. reflexivity. Qed.

(** ** Loops that stop at the first exception *)

Section Traverse.
Context {A B : Type} (f : A -> result B).

Lemma traverse_length (l : list A) (l' : list B) :
  traverse f l = Return l' -> length l' = length l.
Proof.
  revert l'; induction l as [|a l IH]; intros l' H; simpl in H.
  - now inversion H.
  - destruct (f a) as [b|e]; simpl in H; [|discriminate].
    destruct (traverse f l) as [bs|e]; simpl in H; [|discriminate].
    inversion H; subst; simpl. f_equal. now apply IH.
Qed.

Lemma traverse_lookup (l : list A) (l' : list B) (i : nat) (a : A) :
  traverse f l = Return l' -> l !! i = Some a ->
  exists b, l' !! i = Some b /\ f a = Return b.
Proof.
  revert l' i; induction l as [|x l IH]; intros l' i H Hi; [discriminate|].
  simpl in H.
  destruct (f x) as [b|e] eqn:Hx; simpl in H; [|discriminate].
  destruct (traverse f l) as [bs|e] eqn:Hl; simpl in H; [|discriminate].
  inversion H; subst; clear H.
  destruct i as [|i]; simpl in *.
  - inversion Hi; subst. eauto.
  - eapply IH; eauto.
Qed.

Lemma traverse_raises (l : list A) (a : A) (e : exn) :
  In a l -> f a = Raise e -> exists e', traverse f l = Raise e'.
Proof.
  induction l as [|x l IH]; intros Hin Ha; [contradiction|].
  simpl. destruct Hin as [->|Hin].
  - rewrite Ha. simpl. eauto.
  - destruct (f x); simpl; eauto.
    destruct (IH Hin Ha) as [e' ->]. simpl. eauto.
Qed.
End Traverse.

Lemma wal_loop_traverse (P : platform) (rows : list row) (history : list chromeHistory.entry) :
  chromeHistory.wal_loop P rows history =
  let? es := traverse (chromeHistory.wal_entry P) rows in Return (history ++ es).
Proof.
  revert history; induction rows as [|r rows IH]; intros history; simpl.
  - now rewrite app_nil_r.
  - destruct (chromeHistory.wal_entry P r) as [e|x]; simpl; [|reflexivity].
    rewrite IH. destruct (traverse _ rows); simpl; [|reflexivity].
    now rewrite <- app_assoc.
Qed.

Lemma copy_loop_traverse (P : platform) (rows : list row) (history : list chromeHistory.entry) :
  chromeHistory.copy_loop P rows history =
  let? es := traverse (chromeHistory.copy_entry P) rows in Return (history ++ es).
Proof.
  revert history; induction rows as [|r rows IH]; intros history; simpl.
  - now rewrite app_nil_r.
  - destruct (chromeHistory.copy_entry P r) as [e|x]; simpl; [|reflexivity].
    rewrite IH. destruct (traverse _ rows); simpl; [|reflexivity].
    now rewrite <- app_assoc.
Qed.

(** The two loop bodies are the same function of the row. *)
Lemma copy_entry_wal_entry (P : platform) (r : row) :
  chromeHistory.copy_entry P r = chromeHistory.wal_entry P r.
Proof. reflexivity. Qed.

Lemma copy_loop_wal_loop (P : platform) (rows : list row) (history : list chromeHistory.entry) :
  chromeHistory.copy_loop P rows history = chromeHistory.wal_loop P rows history.
Proof.
  revert history; induction rows as [|r rows IH]; intros history; simpl; [reflexivity|].
  rewrite copy_entry_wal_entry.
  destruct (chromeHistory.wal_entry P r); simpl; [apply IH|reflexivity].
Qed.

(** ** The direct read-only strategy, run *)

(** What [getRecentChromeHistoryWAL] hands back, case by case. *)
Lemma wal_returns (P : platform) (limit : Z) (w : world) :
  snd (chromeHistory.getRecentChromeHistoryWAL P limit w) =
  Return
    (if bool_decide (is_Some (files w !! history_path P)) then
       match snd (sqlite3_fetchall P (files w) (chromeHistory.db_uri P) true chromeHistory.wal_query limit) with
       | Return rows => or_empty (chromeHistory.wal_loop P rows [])
       | Raise _ => []
       end
     else []).
Proof.
  unfold chromeHistory.getRecentChromeHistoryWAL, bind, os_path_exists. simpl.
  destruct (bool_decide (is_Some (files w !! history_path P))); simpl; [|reflexivity].
  unfold try_except, bind, sqlite3_query.
  destruct (sqlite3_fetchall P (files w) _ true chromeHistory.wal_query limit) as [fs [rows|e]]; simpl.
  - unfold lift. destruct (chromeHistory.wal_loop P rows []) as [h|e]; simpl; [reflexivity|].
    destruct (isinstance e OperationalError); reflexivity.
  - destruct (isinstance e OperationalError); reflexivity.
Qed.

(** ** The copy-then-query strategy, run *)

Section Wp.
Context {A : Type} (Q : world -> A -> Prop) (QE : world -> exn -> Prop).

Lemma wp_ret (a : A) (w : world) : Q w a -> wp (ret a) Q QE w.
Proof. exact (fun H => H). Qed.

Lemma wp_lift (r : result A) (w : world) :
  match r with Return a => Q w a | Raise e => QE w e end -> wp (lift r) Q QE w.
Proof. unfold wp, lift. now destruct r. Qed.

Lemma wp_bind {B} (m : M B) (k : B -> M A) (w : world) :
  wp m (fun w' b => wp (k b) Q QE w') QE w -> wp (bind m k) Q QE w.
Proof. unfold wp, bind. now destruct (m w) as [w' [b|e]]. Qed.

Lemma wp_try_except (body : M A) (handler : exn -> M A) (w : world) :
  wp body Q (fun w' e => wp (handler e) Q QE w') w ->
  wp (try_except body handler) Q QE w.
Proof. unfold wp, try_except. now destruct (body w) as [w' [b|e]]. Qed.

Lemma wp_sqlite3_query (P : platform) db uri sql limit
    (Q' : world -> list row -> Prop) (w : world) :
  (forall fs rows,
      snd (sqlite3_fetchall P (files w) db uri sql limit) = Return rows ->
      Q' (World fs (stdout w)) rows) ->
  (forall fs e, QE (World fs (stdout w)) e) ->
  wp (sqlite3_query P db uri sql limit) Q' QE w.
Proof.
  intros HQ HE. unfold wp, sqlite3_query.
  destruct (sqlite3_fetchall P (files w) db uri sql limit) as [fs [rows|e]] eqn:E; simpl; auto.
Qed.
End Wp.

Lemma wp_os_path_exists (p : string) Q QE (w : world) :
  Q w (bool_decide (is_Some (files w !! p))) -> wp (os_path_exists p) Q QE w.
Proof. exact (fun H => H). Qed.

Lemma wp_print (p : printed) Q QE (w : world) :
  Q (World (files w) (stdout w ++ [p])) tt -> wp (print p) Q QE w.
Proof. exact (fun H => H). Qed.

Lemma wp_shutil_copy2 (P : platform) (src dst : string) Q QE (w : world) :
  (forall data, Q (World (<[dst := data]> (files w)) (stdout w)) tt) ->
  (forall e, QE w e) ->
  (forall e data, QE (World (<[dst := data]> (files w)) (stdout w)) e) ->
  wp (shutil_copy2 P src dst) Q QE w.
Proof.
  intros HQ HE HE'. unfold wp, shutil_copy2.
  destruct (copy2_fault P (files w) src dst) as [[e [partial|]]|]; auto.
  destruct (files w !! src); auto.
Qed.

Lemma wp_os_remove (P : platform) (p : string) Q QE (w : world) :
  Q (World (delete p (files w)) (stdout w)) tt ->
  (forall e, QE w e) ->
  wp (os_remove P p) Q QE w.
Proof.
  intros HQ HE. unfold wp, os_remove.
  destruct (remove_fault P (files w) p); auto.
  destruct (files w !! p); auto.
Qed.

Ltac wp_step :=
  lazymatch goal with
  | |- wp (bind _ _) _ _ _ => apply wp_bind
  | |- wp (ret _) _ _ _ => apply wp_ret
  | |- wp (lift _) _ _ _ => apply wp_lift
  | |- wp (print _) _ _ _ => apply wp_print
  | |- wp (os_path_exists _) _ _ _ => apply wp_os_path_exists
  | |- wp (try_except _ _) _ _ _ => apply wp_try_except
  | |- wp (os_remove _ _) _ _ _ => apply wp_os_remove
  | |- wp (shutil_copy2 _ _ _) _ _ _ => apply wp_shutil_copy2
  | |- wp (if ?b then _ else _) _ _ _ => destruct b eqn:?
  end.

Lemma temp_journal_ne : chromeHistory.temp_path <> chromeHistory.temp_journal.
Proof. discriminate. Qed.

(** When the [try] suite runs to its end, both scratch files are gone. *)
Lemma copy_try_cleans_up (P : platform) (limit : Z) (w : world) :
  wp (chromeHistory.copy_try P limit)
     (fun w' _ => absent chromeHistory.temp_path w' /\ absent chromeHistory.temp_journal w')
     (fun _ _ => True) w.
Proof.
  unfold chromeHistory.copy_try, absent.
  repeat (wp_step; simpl; intros; auto).
  all: try (apply wp_sqlite3_query; intros; auto).
  all: repeat (wp_step; simpl; intros; auto).
  all: try destruct (chromeHistory.copy_loop P rows []); auto.
  all: repeat (wp_step; simpl; intros; auto).
  all: pose proof temp_journal_ne.
  all: try (split; [rewrite ?lookup_delete_ne by auto; apply lookup_delete_eq
                   | apply lookup_delete_eq]).
  all: try (split; [apply lookup_delete_eq|]).
  all: match goal with
       | H : bool_decide _ = false |- _ =>
           apply bool_decide_eq_false in H; simpl in H;
           now apply eq_None_not_Some
       end.
Qed.

(** When the handler runs to its end, the scratch copy is gone and the
    list is empty; the journal is where it was. *)
Lemma copy_except_removes_copy (P : platform) (e : exn) (w : world) :
  wp (chromeHistory.copy_except P e)
     (fun w' l => l = [] /\ absent chromeHistory.temp_path w'
                  /\ files w' !! chromeHistory.temp_journal = files w !! chromeHistory.temp_journal)
     (fun _ _ => True) w.
Proof.
  unfold chromeHistory.copy_except, absent.
  repeat (wp_step; simpl; intros; auto).
  - repeat split; [apply lookup_delete_eq|].
    apply lookup_delete_ne, temp_journal_ne.
  - match goal with
    | H : bool_decide _ = false |- _ => apply bool_decide_eq_false in H; simpl in H
    end.
    repeat split. now apply eq_None_not_Some.
Qed.

Lemma wp_elim {A} (m : M A) Q QE (w : world) (a : A) :
  wp m Q QE w -> snd (m w) = Return a -> Q (fst (m w)) a.
Proof. unfold wp. destruct (m w) as [w' [b|e]]; simpl; intros H E; now inversion E; subst. Qed.

(** A list [getRecentChromeHistoryCopy] returns is empty, or it is what the
    loop made of the rows the query on the scratch copy gave. *)
Lemma copy_returns (P : platform) (limit : Z) (w : world) (rows : list row)
    (history : list chromeHistory.entry) :
  (forall fs, snd (sqlite3_fetchall P fs chromeHistory.temp_path false
                     chromeHistory.copy_query limit) = Return rows) ->
  snd (chromeHistory.getRecentChromeHistoryCopy P limit w) = Return history ->
  history = [] \/ chromeHistory.copy_loop P rows [] = Return history.
Proof.
  intros Hq. apply (wp_elim _ (fun _ h => h = [] \/ chromeHistory.copy_loop P rows [] = Return h)
                             (fun _ _ => True)).
  unfold chromeHistory.getRecentChromeHistoryCopy, chromeHistory.copy_try, chromeHistory.copy_except.
  repeat (wp_step; simpl; intros; auto).
  all: try (apply wp_sqlite3_query; [intros fs rows' Hrows|]; intros).
  all: repeat (wp_step; simpl; intros; auto).
  all: try (rewrite Hq in Hrows; inversion Hrows; subst rows').
  all: try (destruct (chromeHistory.copy_loop P rows []) eqn:?; auto).
  all: repeat (wp_step; simpl; intros; auto).
Qed.

(** With no fault of the file system and a database engine that leaves the
    files alone, the copy strategy hands back what the database gave. *)
Lemma copy_returns_no_fault (P : platform) (limit : Z) (w : world)
    (r : result (list row)) :
  is_Some (files w !! history_path P) ->
  (forall fs src dst, copy2_fault P fs src dst = None) ->
  (forall fs p, remove_fault P fs p = None) ->
  (forall fs db uri sql, sqlite3_fetchall P fs db uri sql limit = (fs, r)) ->
  snd (chromeHistory.getRecentChromeHistoryCopy P limit w) =
  Return (or_empty (let? rows := r in chromeHistory.copy_loop P rows [])).
Proof.
  intros Hstore Hcopy Hremove Hsql.
  unfold chromeHistory.getRecentChromeHistoryCopy, bind at 1, os_path_exists at 1.
  rewrite bool_decide_eq_true_2 by exact Hstore. simpl.
  destruct Hstore as [data Hdata].
  unfold try_except, chromeHistory.copy_try.
  unfold bind at 1, shutil_copy2 at 1. rewrite Hcopy, Hdata.
  set (w1 := World (<[chromeHistory.temp_path := data]> (files w)) (stdout w)).
  assert (Htemp1 : is_Some (files w1 !! chromeHistory.temp_path))
    by (eexists; apply lookup_insert_eq).
  unfold bind at 1, os_path_exists at 1.
  assert (Hj : exists w2,
    (if bool_decide (is_Some (files w1 !! (history_path P +:+ "-journal")))
     then shutil_copy2 P (history_path P +:+ "-journal") chromeHistory.temp_journal
     else ret ()) w1 = (w2, Return tt)
    /\ is_Some (files w2 !! chromeHistory.temp_path)).
  { destruct (bool_decide (is_Some (files w1 !! (history_path P +:+ "-journal")))) eqn:E.
    - apply bool_decide_eq_true in E. destruct E as [j Ej].
      unfold shutil_copy2. rewrite Hcopy, Ej. eexists; split; [reflexivity|].
      simpl. rewrite lookup_insert_ne by (symmetry; apply temp_journal_ne). exact Htemp1.
    - exists w1. split; [reflexivity|exact Htemp1]. }
  destruct Hj as (w2 & Hw2 & [d2 Htemp2]).
  unfold bind at 1. rewrite Hw2.
  unfold bind at 1, sqlite3_query at 1. rewrite Hsql.
  destruct r as [rows|e]; simpl.
  - unfold bind at 1, lift at 1.
    destruct (chromeHistory.copy_loop P rows []) as [h|e]; simpl.
    + unfold bind at 1, os_remove at 1. simpl. rewrite Hremove, Htemp2.
      unfold bind at 1, os_path_exists at 1.
      match goal with
      | |- context [bool_decide ?X] => destruct (bool_decide X) eqn:E
      end.
      * apply bool_decide_eq_true in E. destruct E as [j Ej].
        unfold bind at 1, os_remove at 1. rewrite Hremove, Ej. reflexivity.
      * reflexivity.
    + unfold chromeHistory.copy_except, bind, print, os_path_exists, os_remove; simpl.
      rewrite bool_decide_eq_true_2 by (rewrite Htemp2; eauto). simpl.
      now rewrite Hremove, Htemp2.
  - unfold chromeHistory.copy_except, bind, print, os_path_exists, os_remove; simpl.
    rewrite bool_decide_eq_true_2 by (rewrite Htemp2; eauto). simpl.
    now rewrite Hremove, Htemp2.
Qed.

(** Whenever the store and its journal exist, the copies go through and
    the query on the copy raises, the handler leaves the scratch journal
    behind. *)
Lemma copy_error_leaves_journal (P : platform) (limit : Z) (w : world) (e : exn) :
  is_Some (files w !! history_path P) ->
  is_Some (files w !! (history_path P ++ "-journal")%string) ->
  (forall fs src dst, copy2_fault P fs src dst = None) ->
  (forall fs p, remove_fault P fs p = None) ->
  (forall fs, sqlite3_fetchall P fs chromeHistory.temp_path false
                chromeHistory.copy_query limit = (fs, Raise e)) ->
  let run := chromeHistory.getRecentChromeHistoryCopy P limit w in
  snd run = Return []
  /\ absent chromeHistory.temp_path (fst run)
  /\ is_Some (files (fst run) !! chromeHistory.temp_journal).
Proof.
  intros [data Hdata] Hjournal Hcopy Hremove Hsql.
  pose (w1 := World (<[chromeHistory.temp_path := data]> (files w)) (stdout w)).
  assert (Hj1 : is_Some (files w1 !! (history_path P +:+ "-journal"))).
  { unfold w1. cbn [files]. rewrite lookup_insert. case_decide; [eauto|exact Hjournal]. }
  destruct Hj1 as [jdata Hjdata].
  assert (Hrun : chromeHistory.getRecentChromeHistoryCopy P limit w
                 = (World (delete chromeHistory.temp_path
                             (<[chromeHistory.temp_journal := jdata]> (files w1)))
                          (stdout w ++ [LineExn "Error reading Chrome history: " e]),
                    Return [])).
  { unfold chromeHistory.getRecentChromeHistoryCopy, bind at 1, os_path_exists at 1.
    rewrite bool_decide_eq_true_2 by (rewrite Hdata; eauto). cbn [negb].
    unfold try_except, chromeHistory.copy_try.
    unfold bind at 1, shutil_copy2 at 1. rewrite Hcopy, Hdata. fold w1.
    unfold bind at 1, os_path_exists at 1.
    rewrite bool_decide_eq_true_2 by (rewrite Hjdata; eauto).
    unfold bind at 1, shutil_copy2 at 1. rewrite Hcopy, Hjdata.
    unfold bind at 1, sqlite3_query at 1. rewrite Hsql.
    unfold chromeHistory.copy_except, bind, print, os_path_exists, os_remove.
    unfold w1. cbn [files stdout].
    assert (Htemp : (<[chromeHistory.temp_journal := jdata]>
                       (<[chromeHistory.temp_path := data]> (files w)))
                      !! chromeHistory.temp_path = Some data).
    { rewrite lookup_insert_ne by (symmetry; apply temp_journal_ne).
      apply lookup_insert_eq. }
    rewrite bool_decide_eq_true_2 by (exists data; exact Htemp).
    cbv beta. cbn [files stdout]. now rewrite Hremove, Htemp. }
  rewrite Hrun. cbn [fst snd]. unfold absent. cbn [files].
  repeat split.
  - apply lookup_delete_eq.
  - rewrite lookup_delete_ne by apply temp_journal_ne.
    rewrite lookup_insert_eq. eauto.
Qed.

Lemma wp_os_remove_present (P : platform) (p : string) Q QE (w : world) :
  remove_fault P (files w) p = None ->
  is_Some (files w !! p) ->
  Q (World (delete p (files w)) (stdout w)) tt ->
  wp (os_remove P p) Q QE w.
Proof.
  intros Hfault [data Hdata] HQ. unfold wp, os_remove. now rewrite Hfault, Hdata.
Qed.

(** The copy strategy lets no exception out as long as removing the
    scratch copy in the handler does not fail. *)
Lemma copy_returns_a_list (P : platform) (limit : Z) (w : world) :
  (forall fs p, remove_fault P fs p = None) ->
  exists history, snd (chromeHistory.getRecentChromeHistoryCopy P limit w) = Return history.
Proof.
  intros Hremove.
  assert (Hhandler : forall e w', wp (chromeHistory.copy_except P e)
                                     (fun _ _ => True) (fun _ _ => False) w').
  { intros e w'. unfold chromeHistory.copy_except.
    apply wp_bind, wp_print. apply wp_bind, wp_os_path_exists.
    destruct (bool_decide _) eqn:E; apply wp_bind.
    - apply bool_decide_eq_true in E.
      apply wp_os_remove_present; [apply Hremove|exact E|]. now apply wp_ret.
    - apply wp_ret. now apply wp_ret. }
  unfold chromeHistory.getRecentChromeHistoryCopy, bind at 1, os_path_exists at 1.
  destruct (negb _).
  - eexists. reflexivity.
  - unfold try_except.
    destruct (chromeHistory.copy_try P limit w) as [w' [h|e]]; [eauto|].
    specialize (Hhandler e w'). unfold wp in Hhandler.
    destruct (chromeHistory.copy_except P e w') as [w'' [h|e']]; [eauto|contradiction].
Qed.

(** When it does fail, the exception of the handler escapes. *)
Lemma copy_handler_can_raise :
  snd (chromeHistory.getRecentChromeHistoryCopy foreign_scratch 10 foreign_scratch_world)
  = Raise (Exn PermissionError "/tmp/chrome_history_copy.db").
Proof. vm_compute. reflexivity. Qed.

(** ** The copy strategy without file faults *)

Lemma scratch_files_lookup (P : platform) (fs : gmap string string) (data : string) :
  scratch_files P fs data !! chromeHistory.temp_path = Some data
  /\ forall p, p <> chromeHistory.temp_path -> p <> chromeHistory.temp_journal ->
       scratch_files P fs data !! p = fs !! p.
Proof.
  unfold scratch_files. cbv zeta.
  destruct (<[chromeHistory.temp_path:=data]> fs !! (history_path P +:+ "-journal")).
  - split.
    + rewrite lookup_insert_ne by (symmetry; apply temp_journal_ne). apply lookup_insert_eq.
    + intros p H1 H2. now rewrite !lookup_insert_ne by congruence.
  - split; [apply lookup_insert_eq|].
    intros p H1 H2. now rewrite lookup_insert_ne by congruence.
Qed.

Lemma scratch_files_removed (P : platform) (fs : gmap string string) (data : string) :
  delete chromeHistory.temp_journal (delete chromeHistory.temp_path (scratch_files P fs data))
  = delete chromeHistory.temp_journal (delete chromeHistory.temp_path fs).
Proof.
  apply map_eq. intros p.
  destruct (decide (p = chromeHistory.temp_journal)) as [->|Hj];
    [now rewrite !lookup_delete_eq|].
  rewrite !(lookup_delete_ne _ chromeHistory.temp_journal) by congruence.
  destruct (decide (p = chromeHistory.temp_path)) as [->|Ht];
    [now rewrite !lookup_delete_eq|].
  rewrite !(lookup_delete_ne _ chromeHistory.temp_path) by congruence.
  now apply scratch_files_lookup.
Qed.

(** The copy strategy run on a machine without file faults, when the
    database engine leaves the files as the two copies made them. *)
Lemma copy_run_scratch (P : platform) (limit : Z) (w : world) (data : string) :
  files w !! history_path P = Some data ->
  no_file_fault P ->
  fst (sqlite3_fetchall P (scratch_files P (files w) data) chromeHistory.temp_path false
         chromeHistory.copy_query limit) = scratch_files P (files w) data ->
  chromeHistory.getRecentChromeHistoryCopy P limit w =
  match (let? rows := snd (sqlite3_fetchall P (scratch_files P (files w) data)
                             chromeHistory.temp_path false chromeHistory.copy_query limit) in
         chromeHistory.copy_loop P rows []) with
  | Return history =>
      (World (delete chromeHistory.temp_journal (delete chromeHistory.temp_path (files w)))
             (stdout w), Return history)
  | Raise e =>
      (World (delete chromeHistory.temp_path (scratch_files P (files w) data))
             (stdout w ++ [LineExn "Error reading Chrome history: " e]), Return [])
  end.
Proof.
  intros Hdata [Hcopy Hremove] Hkeeps.
  destruct (scratch_files_lookup P (files w) data) as [Htemp _].
  pose proof (scratch_files_removed P (files w) data) as Hclean.
  unfold chromeHistory.getRecentChromeHistoryCopy, bind at 1, os_path_exists at 1.
  rewrite bool_decide_eq_true_2 by (rewrite Hdata; eauto). cbn [negb].
  unfold try_except, chromeHistory.copy_try.
  unfold bind at 1, shutil_copy2 at 1. rewrite Hcopy, Hdata.
  unfold bind at 1, os_path_exists at 1. cbn [files stdout].
  assert (Hstep : forall k : unit -> M (list chromeHistory.entry),
    bind (if bool_decide (is_Some (<[chromeHistory.temp_path:=data]> (files w)
                                     !! (history_path P +:+ "-journal")))
          then shutil_copy2 P (history_path P +:+ "-journal") chromeHistory.temp_journal
          else ret ()) k
         (World (<[chromeHistory.temp_path:=data]> (files w)) (stdout w))
    = k tt (World (scratch_files P (files w) data) (stdout w))).
  { intros k. unfold scratch_files. cbv zeta.
    destruct (<[chromeHistory.temp_path:=data]> (files w) !! (history_path P +:+ "-journal"))
      as [j|] eqn:Ej.
    - rewrite bool_decide_eq_true_2 by eauto.
      unfold bind, shutil_copy2. cbn [files stdout]. now rewrite Hcopy, Ej.
    - rewrite bool_decide_eq_false_2 by (now intros [? ?]). reflexivity. }
  rewrite Hstep. clear Hstep.
  unfold bind at 1, sqlite3_query at 1. cbn [files stdout].
  destruct (sqlite3_fetchall P (scratch_files P (files w) data) chromeHistory.temp_path false
              chromeHistory.copy_query limit) as [fs [rows|e]]; cbn [fst snd] in *; subst fs;
    cbn [result_bind].
  - unfold bind at 1, lift at 1.
    destruct (chromeHistory.copy_loop P rows []) as [history|e].
    + unfold bind at 1, os_remove at 1. cbn [files stdout]. rewrite Hremove, Htemp.
      unfold bind at 1, os_path_exists at 1. cbn [files stdout].
      destruct (delete chromeHistory.temp_path (scratch_files P (files w) data)
                !! chromeHistory.temp_journal) as [j|] eqn:Ej.
      * rewrite bool_decide_eq_true_2 by eauto.
        unfold bind, os_remove, ret. cbn [files stdout]. now rewrite Hremove, Ej, Hclean.
      * rewrite bool_decide_eq_false_2 by (now intros [? ?]).
        unfold bind, ret. rewrite <- Hclean. now rewrite (delete_id _ _ Ej).
    + unfold chromeHistory.copy_except, bind, print, os_path_exists, os_remove, ret.
      cbn [files stdout]. rewrite bool_decide_eq_true_2 by eauto.
      cbv beta. cbn [files stdout]. now rewrite Hremove, Htemp.
  - unfold chromeHistory.copy_except, bind, print, os_path_exists, os_remove, ret.
    cbn [files stdout]. rewrite bool_decide_eq_true_2 by eauto.
    cbv beta. cbn [files stdout]. now rewrite Hremove, Htemp.
Qed.

(** The same on a machine whose database engine never touches a file. *)
Lemma copy_run_no_fault (P : platform) (limit : Z) (w : world) (data : string) :
  files w !! history_path P = Some data ->
  no_file_fault P ->
  sqlite_keeps_files P ->
  chromeHistory.getRecentChromeHistoryCopy P limit w =
  match (let? rows := snd (sqlite3_fetchall P (scratch_files P (files w) data)
                             chromeHistory.temp_path false chromeHistory.copy_query limit) in
         chromeHistory.copy_loop P rows []) with
  | Return history =>
      (World (delete chromeHistory.temp_journal (delete chromeHistory.temp_path (files w)))
             (stdout w), Return history)
  | Raise e =>
      (World (delete chromeHistory.temp_path (scratch_files P (files w) data))
             (stdout w ++ [LineExn "Error reading Chrome history: " e]), Return [])
  end.
Proof.
  intros Hdata Hfault Hkeeps. apply copy_run_scratch; [assumption..|apply Hkeeps].
Qed.

(** ** Entries and the rows they come from *)

Lemma or_empty_lookup {A} (r : result (list A)) (i : nat) (a : A) :
  or_empty r !! i = Some a -> exists l, r = Return l /\ l !! i = Some a.
Proof. destruct r as [l|e]; simpl; [eauto|discriminate]. Qed.

(** The entry at a position of the list [getRecentChromeHistoryWAL]
    returned was made from the row at that position. *)
Lemma wal_history_entry (P : platform) (limit : Z) (w : world) (rows : list row)
    (history : list chromeHistory.entry) (i : nat) (e : chromeHistory.entry) :
  snd (sqlite3_fetchall P (files w) (chromeHistory.db_uri P) true
         chromeHistory.wal_query limit) = Return rows ->
  snd (chromeHistory.getRecentChromeHistoryWAL P limit w) = Return history ->
  history !! i = Some e ->
  exists r, rows !! i = Some r /\ chromeHistory.wal_entry P r = Return e.
Proof.
  intros Hrows Hrun Hi. rewrite wal_returns, Hrows in Hrun.
  inversion Hrun as [Hh]; clear Hrun. rewrite <- Hh in Hi.
  destruct (bool_decide _); [|discriminate].
  apply or_empty_lookup in Hi as (l & Hl & Hi).
  rewrite wal_loop_traverse in Hl.
  destruct (traverse (chromeHistory.wal_entry P) rows) as [es|x] eqn:Ht; [|discriminate].
  simpl in Hl. inversion Hl; subst l; clear Hl.
  assert (Hlen := traverse_length _ _ _ Ht).
  destruct (rows !! i) as [r|] eqn:Hr.
  - destruct (traverse_lookup _ _ _ _ _ Ht Hr) as (b & Hb & Hfb).
    exists r. split; [reflexivity|]. congruence.
  - apply lookup_ge_None in Hr. apply lookup_lt_Some in Hi. lia.
Qed.

(** The same for [getRecentChromeHistoryCopy]. *)
Lemma copy_history_entry (P : platform) (limit : Z) (w : world) (rows : list row)
    (history : list chromeHistory.entry) (i : nat) (e : chromeHistory.entry) :
  (forall fs, snd (sqlite3_fetchall P fs chromeHistory.temp_path false
                     chromeHistory.copy_query limit) = Return rows) ->
  snd (chromeHistory.getRecentChromeHistoryCopy P limit w) = Return history ->
  history !! i = Some e ->
  exists r, rows !! i = Some r /\ chromeHistory.copy_entry P r = Return e.
Proof.
  intros Hrows Hrun Hi.
  destruct (copy_returns _ _ _ _ _ Hrows Hrun) as [->|Hl]; [discriminate|].
  rewrite copy_loop_traverse in Hl.
  destruct (traverse (chromeHistory.copy_entry P) rows) as [es|x] eqn:Ht; [|discriminate].
  simpl in Hl. inversion Hl; subst history; clear Hl.
  assert (Hlen := traverse_length _ _ _ Ht).
  destruct (rows !! i) as [r|] eqn:Hr.
  - destruct (traverse_lookup _ _ _ _ _ Ht Hr) as (b & Hb & Hfb).
    exists r. split; [reflexivity|]. congruence.
  - apply lookup_ge_None in Hr. apply lookup_lt_Some in Hi. lia.
Qed.

Lemma wal_entry_visit_time (P : platform) (r : row) (e : chromeHistory.entry) :
  chromeHistory.wal_entry P r = Return e ->
  chromeHistory.wal_visit_datetime P (row_visit_time r) = Return (chromeHistory.visit_time e).
Proof.
  destruct r as [u t c ct d]; unfold chromeHistory.wal_entry; simpl.
  destruct (chromeHistory.wal_visit_datetime P ct) as [v|x]; simpl; [|discriminate].
  match goal with |- result_bind ?s _ = _ -> _ => destruct s as [secs|x] end;
    simpl; [|discriminate].
  intros H; inversion H; reflexivity.
Qed.


(** ** The timestamp conversion *)



(** Rows that all convert give one entry each. *)
Lemma rows_convert (P : platform) (rows : list row) :
  forallb (row_converts P) rows = true ->
  exists es, traverse (chromeHistory.wal_entry P) rows = Return es.
Proof.
  induction rows as [|r rows IH]; intros H; [now exists []|].
  cbn [forallb] in H. apply andb_true_iff in H as [Hr Hrows].
  destruct (IH Hrows) as [es Hes]. unfold row_converts in Hr.
  cbn [traverse]. rewrite Hes.
  destruct (chromeHistory.wal_entry P r) as [e|x]; [|discriminate].
  now exists (e :: es).
Qed.

(** What a strategy returns when it is handed rows that all convert. *)
Lemma reads_rows_returns (s : strategy) (P : platform) (limit : Z) (w : world)
    (rows : list row) (es : list chromeHistory.entry) :
  reads_rows s P limit w rows ->
  traverse (chromeHistory.wal_entry P) rows = Return es ->
  snd (recent_history s P limit w) = Return es.
Proof.
  intros Hreads Hes.
  assert (Hloop : chromeHistory.wal_loop P rows [] = Return es)
    by now rewrite wal_loop_traverse, Hes.
  destruct s; cbn [recent_history reads_rows] in *.
  - destruct Hreads as [Hstore Hrows].
    rewrite wal_returns, Hrows, Hloop, bool_decide_eq_true_2 by assumption. reflexivity.
  - destruct Hreads as (data & Hdata & Hfault & Hquery).
    rewrite (copy_run_scratch P limit w data Hdata Hfault) by now rewrite Hquery.
    rewrite Hquery. cbn [snd result_bind].
    change (chromeHistory.copy_loop P rows []) with (chromeHistory.wal_loop P rows []).
    now rewrite Hloop.
Qed.

(** C4. A strategy that is handed rows which all convert returns one entry
    for each row, and the entry of a row whose [visit_time] column is a
    nonzero integer [t] carries the time [fromtimestamp] gives for [t]
    divided by 1,000,000, less 11,644,473,600: a value fixed by [t] and the
    time zone of the machine alone, the same for both strategies. *)
Theorem nonzero_timestamp_converted
    (s : strategy) (P : platform) (limit : Z) (w : world) (rows : list row)
    (i : nat) (r : row) (t : Z) :
  t <> 0 ->
  reads_rows s P limit w rows ->
  forallb (row_converts P) rows = true ->
  rows !! i = Some r ->
  row_visit_time r = PyInt t ->
  exists history e q dt,
    snd (recent_history s P limit w) = Return history
    /\ length history = length rows
    /\ history !! i = Some e
    /\ int_truediv t 1000000 = Return q
    /\ fromtimestamp P (float_sub_int q 11644473600) = Return dt
    /\ chromeHistory.visit_time e = Some dt.
Proof.
  intros Ht Hreads Hall Hr Hcol.
  destruct (rows_convert P rows Hall) as [es Hes].
  destruct (traverse_lookup _ _ _ _ _ Hes Hr) as (e & He & Hentry).
  apply wal_entry_visit_time in Hentry. rewrite Hcol in Hentry.
  unfold chromeHistory.wal_visit_datetime, truthy, truediv_int in Hentry.
  apply Z.eqb_neq in Ht. rewrite Ht in Hentry. cbn [negb] in Hentry.
  destruct (int_truediv t 1000000) as [q|x]; [|discriminate].
  cbn [result_bind] in Hentry.
  destruct (fromtimestamp P (float_sub_int q 11644473600)) as [dt|x] eqn:Hdt; [|discriminate].
  cbn [result_bind] in Hentry.
  exists es, e, q, dt. repeat split.
  - now apply reads_rows_returns with rows.
  - now apply traverse_length in Hes.
  - exact He.
  - exact Hdt.
  - now inversion Hentry.
Qed.

Lemma nonzero_timestamp_converted_witness :
  (exists history e q dt,
     snd (chromeHistory.getRecentChromeHistoryWAL healthy_store 10 demo_world) = Return history
     /\ length history = length demo_rows
     /\ history !! 0%nat = Some e
     /\ int_truediv 13350000000000000 1000000 = Return q
     /\ fromtimestamp healthy_store (float_sub_int q 11644473600) = Return dt
     /\ chromeHistory.visit_time e = Some dt)
  /\ (exists history e q dt,
     snd (chromeHistory.getRecentChromeHistoryCopy healthy_store 10 demo_world) = Return history
     /\ length history = length demo_rows
     /\ history !! 0%nat = Some e
     /\ int_truediv 13350000000000000 1000000 = Return q
     /\ fromtimestamp healthy_store (float_sub_int q 11644473600) = Return dt
     /\ chromeHistory.visit_time e = Some dt).
Proof.
  split.
  - apply (nonzero_timestamp_converted Direct healthy_store 10 demo_world demo_rows 0
             (Row (PyStr "https://www.youtube.com/watch") (PyStr "Video") (PyInt 3)
                  (PyInt 13350000000000000) (PyInt 2500000))).
    + lia.
    + split; [exists "store"|]; reflexivity.
    + vm_compute. reflexivity.
    + reflexivity.
    + reflexivity.
  - apply (nonzero_timestamp_converted ViaCopy healthy_store 10 demo_world demo_rows 0
             (Row (PyStr "https://www.youtube.com/watch") (PyStr "Video") (PyInt 3)
                  (PyInt 13350000000000000) (PyInt 2500000))).
    + lia.
    + exists "store". split; [reflexivity|]. split; [split; intros; reflexivity|reflexivity].
    + vm_compute. reflexivity.
    + reflexivity.
    + reflexivity.
Defined.

(** C2, the claim refuted: on a store whose single visit is stamped 0 the
    entry returned has no visit time, so the conversion of 0 is not a
    defined time value. *)
Lemma timestamp_zero_has_no_time :
  snd (chromeHistory.getRecentChromeHistoryWAL zero_store 10 demo_world)
  = Return [zero_entry]
  /\ chromeHistory.visit_time zero_entry = None
  /\ ~ (exists dt, chromeHistory.wal_visit_datetime zero_store (PyInt 0) = Return (Some dt)).
Proof.
  split; [vm_compute; reflexivity|]. split; [reflexivity|].
  intros [dt H]. discriminate H.
Qed.

(** C2, as amended. The vendor timestamp 0 is not converted: both
    strategies take it for an absent timestamp and give [None].  The
    figure of the claim, -11,644,473,600 seconds, is what the formula gives
    at 0; the test in front of it keeps 0 away from the formula. *)
Theorem timestamp_zero_is_absent (P : platform) :
  chromeHistory.wal_visit_datetime P (PyInt 0) = Return None
  /\ chromeHistory.copy_visit_datetime P (PyInt 0) = Return None
  /\ (let? q := int_truediv 0 1000000 in Return (float_sub_int q 11644473600))
     = Return (float_of_Z (-11644473600)).
Proof. repeat split. Qed.

(** ** The scratch files *)

(** C1, at the failing input. The store and its journal exist and SQLite
    refuses the copy: the call returns the empty list, the scratch copy is
    gone, the scratch journal is still on disk. *)
Theorem copy_error_path_leaves_journal :
  let run := chromeHistory.getRecentChromeHistoryCopy broken_store 10 demo_world in
  snd run = Return []
  /\ absent chromeHistory.temp_path (fst run)
  /\ files (fst run) !! chromeHistory.temp_journal = Some "journal".
Proof. vm_compute. repeat split. Qed.

(** ** The two strategies side by side *)




(** ** The recency formatter *)

Lemma datetime_sub_parts (v : datetime) (d s us : Z) :
  0 <= s < 86400 -> 0 <= us < 1000000 ->
  datetime_sub (Datetime (micros v + d * us_per_day + s * us_per_second + us)) v
  = Timedelta d s us.
Proof.
  intros Hs Hus. unfold datetime_sub, us_per_day, us_per_second in *. simpl micros.
  set (x := micros v + d * (86400 * 1000000) + s * 1000000 + us - micros v).
  assert (Hx : x = d * 86400000000 + (s * 1000000 + us)) by (unfold x; lia).
  assert (Hdiv : x / 86400000000 = d).
  { symmetry. apply (Z.div_unique_pos x 86400000000 d (s * 1000000 + us)); lia. }
  assert (Hmod : x mod 86400000000 = s * 1000000 + us).
  { symmetry. apply (Z.mod_unique_pos x 86400000000 d (s * 1000000 + us)); lia. }
  change (86400 * 1000000) with 86400000000.
  rewrite Hdiv, Hmod. f_equal.
  - symmetry. apply (Z.div_unique_pos _ 1000000 s us); lia.
  - symmetry. apply (Z.mod_unique_pos x 1000000 (d * 86400 + s) us); lia.
Qed.

(** The bucket is chosen on the seconds field of the difference, which
    leaves the whole days out. *)
Lemma formatTimeDelta_buckets (v : datetime) (d s us : Z) :
  0 <= s < 86400 -> 0 <= us < 1000000 ->
  chromeHistory.formatTimeDelta
    (Datetime (micros v + d * us_per_day + s * us_per_second + us)) (Some v)
  = if s <? 60 then (str_of_Z s ++ " seconds ago")%string
    else if s <? 3600 then (str_of_Z (s / 60) ++ " minutes ago")%string
    else if d =? 0 then (str_of_Z (s / 3600) ++ " hours ago")%string
    else (str_of_Z d ++ " days ago")%string.
Proof.
  intros Hs Hus. unfold chromeHistory.formatTimeDelta.
  now rewrite datetime_sub_parts.
Qed.

Lemma formatTimeDelta_unknown (now : datetime) :
  chromeHistory.formatTimeDelta now None = "Unknown time".
Proof. reflexivity. Qed.

Lemma formatTimeDelta_30_seconds (v : datetime) :
  chromeHistory.formatTimeDelta (datetime_add v 0 30) (Some v) = "30 seconds ago".
Proof.
  replace (datetime_add v 0 30)
    with (Datetime (micros v + 0 * us_per_day + 30 * us_per_second + 0))
    by (unfold datetime_add; f_equal; lia).
  now rewrite formatTimeDelta_buckets by lia.
Qed.

Lemma formatTimeDelta_90_seconds (v : datetime) :
  chromeHistory.formatTimeDelta (datetime_add v 0 90) (Some v) = "1 minutes ago".
Proof.
  replace (datetime_add v 0 90)
    with (Datetime (micros v + 0 * us_per_day + 90 * us_per_second + 0))
    by (unfold datetime_add; f_equal; lia).
  now rewrite formatTimeDelta_buckets by lia.
Qed.

Lemma formatTimeDelta_2_hours (v : datetime) :
  chromeHistory.formatTimeDelta (datetime_add v 0 7200) (Some v) = "2 hours ago".
Proof.
  replace (datetime_add v 0 7200)
    with (Datetime (micros v + 0 * us_per_day + 7200 * us_per_second + 0))
    by (unfold datetime_add; f_equal; lia).
  now rewrite formatTimeDelta_buckets by lia.
Qed.

Lemma formatTimeDelta_2_days_2_hours (v : datetime) :
  chromeHistory.formatTimeDelta (datetime_add v 2 7200) (Some v) = "2 days ago".
Proof.
  replace (datetime_add v 2 7200)
    with (Datetime (micros v + 2 * us_per_day + 7200 * us_per_second + 0))
    by (unfold datetime_add; f_equal; lia).
  now rewrite formatTimeDelta_buckets by lia.
Qed.

(** C7, at the failing input. A visit exactly two days before the clock
    reading is reported in seconds, as "0 seconds ago"; a day and a half
    minute is reported as half a minute. *)
Theorem formatTimeDelta_whole_days_lost (v : datetime) :
  chromeHistory.formatTimeDelta (datetime_add v 2 0) (Some v) = "0 seconds ago"
  /\ chromeHistory.formatTimeDelta (datetime_add v 1 30) (Some v) = "30 seconds ago".
Proof.
  split.
  - replace (datetime_add v 2 0)
      with (Datetime (micros v + 2 * us_per_day + 0 * us_per_second + 0))
      by (unfold datetime_add; f_equal; lia).
    now rewrite formatTimeDelta_buckets by lia.
  - replace (datetime_add v 1 30)
      with (Datetime (micros v + 1 * us_per_day + 30 * us_per_second + 0))
      by (unfold datetime_add; f_equal; lia).
    now rewrite formatTimeDelta_buckets by lia.
Qed.

(** ** The distraction filter *)

Lemma prefix_spec (p s : string) :
  String.prefix p s = true <-> exists rest, s = (p ++ rest)%string.
Proof.
  revert p; induction s as [|c' s IH]; intros [|c p]; simpl.
  - split; [now exists EmptyString | reflexivity].
  - split; [discriminate | intros [r Hr]; discriminate].
  - split; [intros _; now eexists | reflexivity].
  - destruct (Ascii.ascii_dec c c') as [->|Hne].
    + rewrite IH. split; intros [r Hr]; exists r; [now rewrite Hr | now inversion Hr].
    + split; [discriminate|]. intros [r Hr]. inversion Hr. congruence.
Qed.

Lemma contains_spec (needle hay : string) :
  contains needle hay = true <-> Substring needle hay.
Proof.
  induction hay as [|c hay IH]; cbn [contains].
  - rewrite orb_false_r, prefix_spec. split.
    + intros [r Hr]. now exists EmptyString, r.
    + intros (b & a & H). destruct b; [now exists a|discriminate].
  - rewrite orb_true_iff, prefix_spec, IH. split.
    + intros [[r Hr]|(b & a & H)].
      * now exists EmptyString, r.
      * exists (String c b), a. simpl. now rewrite H.
    + intros (b & a & H). destruct b as [|c' b]; simpl in H.
      * left. now exists a.
      * right. exists b, a. now inversion H.
Qed.

Lemma existsb_contains_spec (domains : list string) (u : string) :
  existsb (fun d => contains d u) domains = true <-> Distracting domains u.
Proof.
  rewrite existsb_exists. unfold Distracting.
  split; intros (d & Hd & H); exists d; split; auto; now apply contains_spec.
Qed.

Lemma Selected_filter {A} (keep : A -> Prop) (test : A -> bool) (l : list A) :
  (forall x, test x = true <-> keep x) -> Selected keep l (List.filter test l).
Proof.
  intros Htest. induction l as [|x l IH]; simpl; [constructor|].
  destruct (test x) eqn:E.
  - apply Selected_keep; [now apply Htest | exact IH].
  - apply Selected_drop; [|exact IH]. intros Hk. apply Htest in Hk. congruence.
Qed.

Lemma Selected_none {A} (keep : A -> Prop) (l kept : list A) :
  Selected keep l kept -> (forall x, In x l -> ~ keep x) -> kept = [].
Proof.
  induction 1 as [|x l kept Hx _ IH|x l kept Hx _ IH]; intros Hnone.
  - reflexivity.
  - exfalso. apply (Hnone x); [now left | exact Hx].
  - apply IH. intros y Hy. apply Hnone. now right.
Qed.

Lemma Selected_all {A} (keep : A -> Prop) (l kept : list A) :
  Selected keep l kept -> (forall x, In x l -> keep x) -> kept = l.
Proof.
  induction 1 as [|x l kept Hx _ IH|x l kept Hx _ IH]; intros Hall.
  - reflexivity.
  - f_equal. apply IH. intros y Hy. apply Hall. now right.
  - exfalso. apply Hx, Hall. now left.
Qed.

Lemma any_domain_in_text (s : string) (domains : list string) :
  chromeHistory.any_domain_in (PyStr s) domains
  = Return (existsb (fun d => contains d s) domains).
Proof.
  induction domains as [|d ds IH]; simpl; [reflexivity|].
  destruct (contains d s); [reflexivity|exact IH].
Qed.

Lemma recent_distractions_selected (history : list chromeHistory.entry) :
  Forall url_is_text history ->
  exists kept, chromeHistory.recent_distractions history = Return kept
               /\ Selected distracting_entry history kept.
Proof.
  induction 1 as [|e history [s Hs] _ (kept & Hkept & Hsel)];
    cbn [chromeHistory.recent_distractions].
  - exists []. split; [reflexivity|constructor].
  - rewrite Hs, any_domain_in_text, Hkept. cbn [result_bind].
    destruct (existsb _ _) eqn:E.
    + exists (e :: kept). split; [reflexivity|]. apply Selected_keep; [|exact Hsel].
      exists s. split; [exact Hs|]. now apply existsb_contains_spec.
    + exists kept. split; [reflexivity|]. apply Selected_drop; [|exact Hsel].
      intros (s' & Hs' & Hd). rewrite Hs in Hs'. inversion Hs'; subst s'.
      apply existsb_contains_spec in Hd. congruence.
Qed.

(** C8. Both scripts keep exactly the records whose URL mentions one of the
    four domains, in the order they came: nothing when no record does, the
    list itself when every record does. *)
Theorem distraction_filter_selects
    (tabs : list chromeCheck.tab) (history : list chromeHistory.entry) :
  Forall url_is_text history ->
  (Selected distracting_tab tabs (chromeCheck.distractions tabs)
   /\ ((forall t, In t tabs -> ~ distracting_tab t) -> chromeCheck.distractions tabs = [])
   /\ ((forall t, In t tabs -> distracting_tab t) -> chromeCheck.distractions tabs = tabs))
  /\ (exists kept,
        chromeHistory.recent_distractions history = Return kept
        /\ Selected distracting_entry history kept
        /\ ((forall e, In e history -> ~ distracting_entry e) -> kept = [])
        /\ ((forall e, In e history -> distracting_entry e) -> kept = history)).
Proof.
  intros Htext.
  assert (Htabs : Selected distracting_tab tabs (chromeCheck.distractions tabs)).
  { apply Selected_filter. intros t. apply existsb_contains_spec. }
  split.
  - split; [exact Htabs|]. split.
    + now apply Selected_none.
    + now apply Selected_all.
  - destruct (recent_distractions_selected history Htext) as (kept & Hrun & Hsel).
    exists kept. split; [exact Hrun|]. split; [exact Hsel|]. split.
    + now apply Selected_none.
    + now apply Selected_all.
Qed.

Lemma distraction_filter_selects_witness :
  (Selected distracting_tab demo_tabs (chromeCheck.distractions demo_tabs)
   /\ ((forall t, In t demo_tabs -> ~ distracting_tab t)
       -> chromeCheck.distractions demo_tabs = [])
   /\ ((forall t, In t demo_tabs -> distracting_tab t)
       -> chromeCheck.distractions demo_tabs = demo_tabs))
  /\ (exists kept,
        chromeHistory.recent_distractions demo_history = Return kept
        /\ Selected distracting_entry demo_history kept
        /\ ((forall e, In e demo_history -> ~ distracting_entry e) -> kept = [])
        /\ ((forall e, In e demo_history -> distracting_entry e) -> kept = demo_history)).
Proof.
  apply (distraction_filter_selects demo_tabs demo_history).
  repeat constructor; eexists; reflexivity.
Defined.

(** ** Text: splitting and stripping *)

Lemma string_forall_app (test : ascii -> bool) (a b : string) :
  string_forall test (a ++ b)%string = string_forall test a && string_forall test b.
Proof.
  induction a as [|c a IH]; simpl; [reflexivity|].
  now rewrite IH, andb_assoc.
Qed.

Lemma string_forall_impl (test test' : ascii -> bool) (s : string) :
  (forall c, test c = true -> test' c = true) ->
  string_forall test s = true -> string_forall test' s = true.
Proof.
  intros Himpl. induction s as [|c s IH]; simpl; [reflexivity|].
  rewrite !andb_true_iff. intros [Hc Hs]. auto.
Qed.

Lemma split_free (sep : ascii) (s : string) :
  free_of sep s = true -> split sep s = [s].
Proof.
  unfold free_of. induction s as [|c s IH]; simpl; [reflexivity|].
  rewrite andb_true_iff, negb_true_iff. intros [Hc Hs].
  now rewrite Hc, IH.
Qed.

Lemma split_app (sep : ascii) (a b : string) :
  free_of sep a = true ->
  split sep (a ++ String sep b)%string = a :: split sep b.
Proof.
  unfold free_of. induction a as [|c a IH]; simpl.
  - now rewrite Ascii.eqb_refl.
  - rewrite andb_true_iff, negb_true_iff. intros [Hc Ha].
    now rewrite Hc, IH.
Qed.

Lemma split_nonempty (sep : ascii) (s : string) : split sep s <> [].
Proof.
  destruct s as [|c s]; simpl; [discriminate|].
  destruct (Ascii.eqb c sep); [discriminate|].
  destruct (split sep s); discriminate.
Qed.

Lemma split_length_String (sep c : ascii) (s : string) :
  length (split sep (String c s)) =
  if Ascii.eqb c sep then S (length (split sep s)) else length (split sep s).
Proof.
  simpl. destruct (Ascii.eqb c sep); [reflexivity|].
  destruct (split sep s) eqn:E; [now apply split_nonempty in E|reflexivity].
Qed.

Lemma lstrip_app (a b : string) :
  lstrip (a ++ b)%string = if all_space a then lstrip b else (lstrip a ++ b)%string.
Proof.
  unfold all_space. induction a as [|c a IH]; [reflexivity|].
  change (String c a +:+ b) with (String c (a +:+ b)). cbn [lstrip string_forall].
  destruct (is_space c); [exact IH|reflexivity].
Qed.

Lemma rstrip_app (a b : string) :
  rstrip (a ++ b)%string =
  match rstrip b with
  | EmptyString => rstrip a
  | String _ _ => (a ++ rstrip b)%string
  end.
Proof.
  induction a as [|c a IH].
  - change (EmptyString +:+ b) with b. now destruct (rstrip b).
  - change (String c a +:+ b) with (String c (a +:+ b)).
    cbn [rstrip]. rewrite IH. destruct (rstrip b) as [|c' k]; [reflexivity|].
    change (String c a +:+ String c' k) with (String c (a +:+ String c' k)).
    destruct (a +:+ String c' k) eqn:E; [destruct a; discriminate|reflexivity].
Qed.

(** A string that does not end in white space is its own [rstrip]. *)
Lemma rstrip_fixed (s : string) :
  string_forall (fun c => negb (is_space c)) s = true -> rstrip s = s.
Proof.
  induction s as [|c s IH]; simpl; [reflexivity|].
  rewrite andb_true_iff, negb_true_iff. intros [Hc Hs].
  rewrite IH, Hc by exact Hs. now destruct s.
Qed.

Lemma rstrip_forall (test : ascii -> bool) (s : string) :
  string_forall test s = true -> string_forall test (rstrip s) = true.
Proof.
  induction s as [|c s IH]; simpl; [reflexivity|].
  rewrite andb_true_iff. intros [Hc Hs]. specialize (IH Hs).
  destruct (rstrip s) as [|c' k].
  - destruct (is_space c); simpl; [reflexivity|now rewrite Hc].
  - simpl in *. now rewrite Hc, IH.
Qed.

Lemma lstrip_forall (test : ascii -> bool) (s : string) :
  string_forall test s = true -> string_forall test (lstrip s) = true.
Proof.
  induction s as [|c s IH]; simpl; [reflexivity|].
  rewrite andb_true_iff. intros [Hc Hs].
  destruct (is_space c); [now apply IH|].
  simpl. now rewrite Hc, Hs.
Qed.

Lemma is_space_not_bar (c : ascii) : is_space c = true -> Ascii.eqb c "|" = false.
Proof.
  destruct c as [[] [] [] [] [] [] [] []]; vm_compute; congruence.
Qed.

Lemma split_length_lstrip (s : string) :
  length (split "|" (lstrip s)) = length (split "|" s).
Proof.
  induction s as [|c s IH]; [reflexivity|].
  cbn [lstrip]. destruct (is_space c) eqn:Hc; [|reflexivity].
  now rewrite IH, (split_length_String _ c), is_space_not_bar.
Qed.

Lemma split_length_rstrip (s : string) :
  length (split "|" (rstrip s)) = length (split "|" s).
Proof.
  induction s as [|c s IH]; [reflexivity|].
  cbn [rstrip]. rewrite (split_length_String _ c s), <- IH.
  destruct (rstrip s) as [|c' k].
  - destruct (is_space c) eqn:Hc.
    + now rewrite is_space_not_bar.
    + now rewrite split_length_String.
  - now rewrite split_length_String.
Qed.

(** ** Integers written and read back *)

Lemma string_of_uint_decimal (d : Decimal.uint) :
  string_forall is_decimal_char (NilEmpty.string_of_uint d) = true.
Proof. induction d; simpl; auto. Qed.

Lemma string_of_uint_length (d : Decimal.uint) :
  String.length (NilEmpty.string_of_uint d) = Decimal.nb_digits d.
Proof. induction d; simpl; auto. Qed.

Lemma str_of_Z_decimal (z : Z) : string_forall is_decimal_char (str_of_Z z) = true.
Proof.
  unfold str_of_Z, NilZero.string_of_int, NilZero.string_of_uint.
  destruct (Z.to_int z) as [d|d]; destruct d; try reflexivity;
    first [ apply string_of_uint_decimal
          | cbn [string_forall]; apply string_of_uint_decimal ].
Qed.

(** Evaluate the test of the character at the head of a literal. *)
Ltac eval_digit_value :=
  match goal with
  | |- context [digit_value ?c] =>
      let v := eval vm_compute in (digit_value c) in
      change (digit_value c) with v; cbv iota beta
  end.

(** Reading the digits of [d] after an accumulated positive value. *)
Lemma scan_digits_acc (d : Decimal.uint) (p : positive) (n : nat) :
  scan_digits (NilEmpty.string_of_uint d) (Z.pos p) n false
  = Some (Z.pos (Pos.of_uint_acc d p), (n + Decimal.nb_digits d)%nat).
Proof.
  revert p n; induction d as [|d IH|d IH|d IH|d IH|d IH|d IH|d IH|d IH|d IH|d IH];
    intros p n;
    cbn [NilEmpty.string_of_uint scan_digits Decimal.nb_digits Pos.of_uint_acc];
    [do 2 f_equal; lia|..];
    eval_digit_value;
    match goal with
    | |- scan_digits _ ?acc _ _ = Some (Z.pos (Pos.of_uint_acc _ ?q), _) =>
        replace acc with (Z.pos q) by lia
    end;
    rewrite IH; do 2 f_equal; lia.
Qed.

(** Reading the digits of [d] from nothing gives the number [d] writes. *)
Lemma scan_digits_uint (d : Decimal.uint) (n : nat) :
  scan_digits (NilEmpty.string_of_uint d) 0 n false
  = Some (Z.of_N (Pos.of_uint d), (n + Decimal.nb_digits d)%nat).
Proof.
  revert n; induction d as [|d IH|d _|d _|d _|d _|d _|d _|d _|d _|d _]; intros n;
    cbn [NilEmpty.string_of_uint scan_digits Decimal.nb_digits Pos.of_uint];
    [do 2 f_equal; lia|..];
    eval_digit_value.
  all: match goal with
       | |- scan_digits _ ?acc _ _ = _ =>
           let v := eval vm_compute in acc in change acc with v
       end.
  all: first [rewrite scan_digits_acc | rewrite IH]; do 2 f_equal; lia.
Qed.

(** [int] reads back what [str] wrote, when the interpreter allows that
    many digits. *)
Lemma py_int_string_of_uint (P : platform) (d : Decimal.uint) :
  d <> Decimal.Nil ->
  digits_allowed P (Decimal.nb_digits d) = true ->
  py_int P (NilEmpty.string_of_uint d) = Return (Z.of_N (Pos.of_uint d))
  /\ py_int P (String "-" (NilEmpty.string_of_uint d)) = Return (- Z.of_N (Pos.of_uint d)).
Proof.
  intros Hnil Hlimit.
  pose proof (scan_digits_uint d 0) as Hscan. rewrite Nat.add_0_l in Hscan.
  destruct d; [contradiction|..];
    (split; unfold py_int;
     cbn [NilEmpty.string_of_uint skip_int_space];
     change (is_int_space _) with false; cbv iota beta;
     eval_digit_value;
     cbn [NilEmpty.string_of_uint] in Hscan; rewrite Hscan, Hlimit; reflexivity).
Qed.

Lemma py_int_str_of_Z (P : platform) (z : Z) :
  digits_allowed P (String.length (str_of_Z (Z.abs z))) = true ->
  py_int P (str_of_Z z) = Return z.
Proof.
  destruct z as [|p|p]; [reflexivity|..]; intros Hlen.
  all: change (str_of_Z (Z.abs _)) with (NilZero.string_of_uint (Pos.to_uint p)) in Hlen.
  all: pose proof (DecimalPos.Unsigned.to_uint_nonnil p) as Hnil.
  all: pose proof (DecimalPos.Unsigned.of_to p) as Hof.
  - change (str_of_Z (Z.pos p)) with (NilZero.string_of_uint (Pos.to_uint p)).
    unfold NilZero.string_of_uint in *.
    destruct (Pos.to_uint p) as [|d|d|d|d|d|d|d|d|d|d]; [contradiction|..];
      rewrite string_of_uint_length in Hlen;
      (destruct (py_int_string_of_uint P _ Hnil Hlen) as [-> _]; now rewrite Hof).
  - change (str_of_Z (Z.neg p)) with (String "-" (NilZero.string_of_uint (Pos.to_uint p))).
    unfold NilZero.string_of_uint in *.
    destruct (Pos.to_uint p) as [|d|d|d|d|d|d|d|d|d|d]; [contradiction|..];
      rewrite string_of_uint_length in Hlen;
      (destruct (py_int_string_of_uint P _ Hnil Hlen) as [_ ->]; now rewrite Hof).
Qed.

(** ** Lines of the automation output *)

Lemma decimal_char_plain (c : ascii) :
  is_decimal_char c = true ->
  is_space c = false /\ Ascii.eqb c "|" = false /\ Ascii.eqb c "010" = false.
Proof.
  destruct c as [[] [] [] [] [] [] [] []]; vm_compute; intros H;
    try discriminate H; repeat split.
Qed.

Lemma str_of_Z_free (z : Z) (sep : ascii) :
  is_decimal_char sep = false -> free_of sep (str_of_Z z) = true.
Proof.
  intros Hsep. unfold free_of.
  apply (string_forall_impl is_decimal_char); [|apply str_of_Z_decimal].
  intros c Hc. apply negb_true_iff. destruct (Ascii.eqb_spec c sep); [congruence|reflexivity].
Qed.

Lemma str_of_Z_no_space (z : Z) :
  string_forall (fun c => negb (is_space c)) (str_of_Z z) = true.
Proof.
  apply (string_forall_impl is_decimal_char); [|apply str_of_Z_decimal].
  intros c Hc. apply negb_true_iff. now apply decimal_char_plain.
Qed.

Lemma str_of_Z_nonempty (z : Z) : exists c rest, str_of_Z z = String c rest.
Proof.
  unfold str_of_Z, NilZero.string_of_int, NilZero.string_of_uint.
  destruct (Z.to_int z) as [d|d]; destruct d; simpl; eauto.
Qed.

Lemma rstrip_app_fixed (a b : string) :
  rstrip b = b -> b <> EmptyString -> rstrip (a ++ b)%string = (a ++ b)%string.
Proof.
  intros Hb Hne. rewrite rstrip_app, Hb. destruct b; [contradiction|reflexivity].
Qed.

Lemma append_nonempty_r (a b : string) :
  b <> EmptyString -> (a ++ b)%string <> EmptyString.
Proof. destruct a; [auto|discriminate]. Qed.

Lemma append_char (c : ascii) (x : string) :
  (String c EmptyString ++ x)%string = String c x.
Proof. reflexivity. Qed.

Section TabLine.
Variable P : platform.
Variable t : chromeCheck.tab.
Hypothesis Hwf : well_formed_line P (TabLine t) = true.

Lemma tab_line_parts :
  delimiter_free t = true
  /\ lstrip (chromeCheck.url t) = chromeCheck.url t
  /\ digits_allowed P (String.length (str_of_Z (Z.abs (chromeCheck.window t)))) = true.
Proof.
  cbn [well_formed_line] in Hwf. apply andb_true_iff in Hwf as [H Hlen].
  apply andb_true_iff in H as [Hfree Hurl].
  repeat split; [exact Hfree|now apply String.eqb_eq|exact Hlen].
Qed.

Lemma tab_line_split :
  split "|" (tab_line t)
  = [chromeCheck.url t; chromeCheck.title t; str_of_Z (chromeCheck.window t)].
Proof.
  destruct tab_line_parts as (Hfree & _ & _). unfold delimiter_free in Hfree.
  repeat (apply andb_true_iff in Hfree as [Hfree ?]).
  unfold tab_line. rewrite !append_char.
  rewrite !split_app by assumption.
  now rewrite split_free by (now apply str_of_Z_free).
Qed.

Lemma tab_line_no_newline : free_of "010" (tab_line t) = true.
Proof.
  destruct tab_line_parts as (Hfree & _ & _). unfold delimiter_free in Hfree.
  repeat (apply andb_true_iff in Hfree as [Hfree ?]).
  unfold tab_line, free_of in *. rewrite !string_forall_app.
  repeat (apply andb_true_iff; split); try assumption; try reflexivity.
  now apply (str_of_Z_free _ "010").
Qed.

Lemma tab_line_nonempty : String.eqb (tab_line t) "" = false.
Proof.
  apply String.eqb_neq. unfold tab_line. apply append_nonempty_r. discriminate.
Qed.

Lemma tab_line_rstrip : rstrip (tab_line t) = tab_line t.
Proof.
  unfold tab_line.
  destruct (str_of_Z_nonempty (chromeCheck.window t)) as (c & rest & Hnum).
  assert (Hfix : rstrip (str_of_Z (chromeCheck.window t)) = str_of_Z (chromeCheck.window t))
    by apply rstrip_fixed, str_of_Z_no_space.
  apply rstrip_app_fixed; [|rewrite append_char; discriminate].
  apply rstrip_app_fixed; [|apply append_nonempty_r; rewrite append_char; discriminate].
  apply rstrip_app_fixed; [|rewrite append_char; discriminate].
  apply rstrip_app_fixed; [exact Hfix|rewrite Hnum; discriminate].
Qed.

Lemma tab_line_lstrip :
  all_space (tab_line t) = false /\ lstrip (tab_line t) = tab_line t.
Proof.
  destruct tab_line_parts as (_ & Hurl & _). unfold tab_line, all_space.
  destruct (chromeCheck.url t) as [|c u]; [split; reflexivity|].
  change (String c u +:+ ?x) with (String c (u +:+ x)).
  cbn [lstrip] in Hurl. cbn [lstrip string_forall].
  destruct (is_space c); [|split; reflexivity].
  exfalso. assert (Hlen : String.length (lstrip u) = S (String.length u)) by now rewrite Hurl.
  clear -Hlen. assert (Hle : forall s, (String.length (lstrip s) <= String.length s)%nat).
  { induction s as [|a s IH]; simpl; [lia|]. destruct (is_space a); simpl; lia. }
  specialize (Hle u). lia.
Qed.

Lemma tabs_loop_tab_line (rest : list string) (tabs : list chromeCheck.tab) :
  chromeCheck.tabs_loop P (tab_line t :: rest) tabs
  = chromeCheck.tabs_loop P rest (tabs ++ [t]).
Proof.
  cbn [chromeCheck.tabs_loop].
  rewrite tab_line_nonempty, tab_line_split. cbn [negb].
  destruct tab_line_parts as (_ & _ & Hlen).
  rewrite py_int_str_of_Z by exact Hlen. cbn [result_bind].
  now destruct t.
Qed.
End TabLine.

Lemma tabs_loop_other (P : platform) (s : string) (rest : list string)
    (tabs : list chromeCheck.tab) :
  (length (split "|" s) =? 3)%nat = false ->
  chromeCheck.tabs_loop P (s :: rest) tabs = chromeCheck.tabs_loop P rest tabs.
Proof.
  intros Hlen. cbn [chromeCheck.tabs_loop].
  destruct (negb (String.eqb s "")); [|reflexivity].
  destruct (split "|" s) as [|a [|b [|c [|d l]]]]; try reflexivity.
  discriminate Hlen.
Qed.

Lemma output_text_cons (l : output_line) (ls : list output_line) :
  output_text (l :: ls) = (line_text l ++ String "010" (output_text ls))%string.
Proof. reflexivity. Qed.

Lemma line_text_no_newline (P : platform) (l : output_line) :
  well_formed_line P l = true -> free_of "010" (line_text l) = true.
Proof.
  destruct l as [t|s]; intros Hwf.
  - now apply (tab_line_no_newline P).
  - simpl in *. now apply andb_true_iff in Hwf as [? _].
Qed.

(** A well-formed line gives its tab, or nothing, also after [rstrip]. *)
Lemma tabs_loop_line_rstrip (P : platform) (l : output_line) (rest : list string)
    (tabs : list chromeCheck.tab) :
  well_formed_line P l = true ->
  chromeCheck.tabs_loop P (rstrip (line_text l) :: rest) tabs
  = chromeCheck.tabs_loop P rest (tabs ++ tabs_of [l]).
Proof.
  destruct l as [t|s]; intros Hwf; cbn [line_text tabs_of].
  - rewrite tab_line_rstrip by exact Hwf. now apply tabs_loop_tab_line.
  - rewrite app_nil_r. apply tabs_loop_other. rewrite split_length_rstrip.
    simpl in Hwf. apply andb_true_iff in Hwf as [_ Hlen]. now apply negb_true_iff.
Qed.

Lemma tabs_loop_line (P : platform) (l : output_line) (rest : list string)
    (tabs : list chromeCheck.tab) :
  well_formed_line P l = true ->
  chromeCheck.tabs_loop P (line_text l :: rest) tabs
  = chromeCheck.tabs_loop P rest (tabs ++ tabs_of [l]).
Proof.
  destruct l as [t|s]; intros Hwf; cbn [line_text tabs_of].
  - now apply tabs_loop_tab_line.
  - rewrite app_nil_r. apply tabs_loop_other.
    simpl in Hwf. apply andb_true_iff in Hwf as [_ Hlen]. now apply negb_true_iff.
Qed.

(** The loop over the lines of the output with its end stripped. *)
Lemma tabs_loop_rstrip_output (P : platform) (ls : list output_line)
    (tabs : list chromeCheck.tab) :
  Forall (fun l => well_formed_line P l = true) ls ->
  chromeCheck.tabs_loop P (split "010" (rstrip (output_text ls))) tabs
  = Return (tabs ++ tabs_of ls).
Proof.
  intros Hwf. revert tabs. induction Hwf as [|l ls Hl Hls IH]; intros tabs.
  - simpl. now rewrite app_nil_r.
  - rewrite output_text_cons, rstrip_app. cbn [rstrip].
    pose proof (line_text_no_newline P l Hl) as Hfree.
    assert (Htabs : tabs_of (l :: ls) = tabs_of [l] ++ tabs_of ls) by now destruct l.
    destruct (rstrip (output_text ls)) as [|c k] eqn:E.
    + change (is_space "010") with true. cbv iota.
      assert (Hnone : tabs_of ls = []).
      { specialize (IH []). simpl in IH. now inversion IH. }
      rewrite Htabs, Hnone, app_nil_r.
      rewrite split_free by now apply rstrip_forall.
      now rewrite tabs_loop_line_rstrip by exact Hl.
    + rewrite Htabs, split_app by exact Hfree.
      rewrite tabs_loop_line by exact Hl.
      now rewrite IH, app_assoc.
Qed.

(** Stripping the front of a well-formed output leaves a well-formed
    output with the same tabs. *)
Lemma lstrip_output_text (P : platform) (ls : list output_line) :
  Forall (fun l => well_formed_line P l = true) ls ->
  exists ls', lstrip (output_text ls) = output_text ls'
              /\ Forall (fun l => well_formed_line P l = true) ls'
              /\ tabs_of ls' = tabs_of ls.
Proof.
  induction 1 as [|l ls Hl Hls (ls' & Htext & Hwf' & Htabs)].
  - exists []. repeat split. constructor.
  - rewrite output_text_cons, lstrip_app.
    destruct l as [t|s].
    + destruct (tab_line_lstrip P t Hl) as [Hspace Hfix]. cbn [line_text].
      rewrite Hspace, Hfix. exists (TabLine t :: ls). repeat split. now constructor.
    + cbn [line_text]. destruct (all_space s) eqn:Hs.
      * cbn [lstrip]. change (is_space "010") with true. cbv iota.
        exists ls'. repeat split; assumption.
      * exists (OtherLine (lstrip s) :: ls). repeat split.
        constructor; [|exact Hls]. simpl in *.
        apply andb_true_iff in Hl as [Hfree Hlen].
        rewrite split_length_lstrip, Hlen. unfold free_of in *.
        now rewrite lstrip_forall.
Qed.

Lemma tabs_loop_strip_output (P : platform) (ls : list output_line) :
  Forall (fun l => well_formed_line P l = true) ls ->
  chromeCheck.tabs_loop P (split "010" (strip (output_text ls))) [] = Return (tabs_of ls).
Proof.
  intros Hwf. unfold strip.
  destruct (lstrip_output_text P ls Hwf) as (ls' & -> & Hwf' & <-).
  now apply tabs_loop_rstrip_output.
Qed.

(** ** The tab lister, run *)

(** What [getCurrentChromeTabs] hands back, case by case; the files are
    left alone. *)
Lemma tabs_returns (P : platform) (w : world) :
  snd (chromeCheck.getCurrentChromeTabs P w) =
  Return
    match osascript P with
    | Return result =>
        if returncode result =? 0
        then or_empty (chromeCheck.tabs_loop P (split "010" (strip (stdout_text result))) [])
        else []
    | Raise _ => []
    end.
Proof.
  unfold chromeCheck.getCurrentChromeTabs, try_except, bind, lift.
  destruct (osascript P) as [result|e]; simpl.
  - destruct (returncode result =? 0); simpl; [|reflexivity].
    destruct (chromeCheck.tabs_loop P _ []) as [tabs|e]; simpl; [reflexivity|].
    destruct (isinstance e TimeoutExpired); reflexivity.
  - destruct (isinstance e TimeoutExpired); reflexivity.
Qed.

Lemma tabs_loop_traverse_raises (P : platform) (lines : list string)
    (tabs : list chromeCheck.tab) (line part0 part1 part2 : string) (e : exn) :
  In line lines ->
  line <> EmptyString ->
  split "|" line = [part0; part1; part2] ->
  py_int P part2 = Raise e ->
  exists e', chromeCheck.tabs_loop P lines tabs = Raise e'.
Proof.
  intros Hin Hne Hsplit Hint. revert tabs.
  induction lines as [|l lines IH]; intros tabs; [contradiction|].
  cbn [chromeCheck.tabs_loop]. destruct Hin as [->|Hin].
  - apply String.eqb_neq in Hne. rewrite Hne, Hsplit, Hint. simpl. eauto.
  - destruct (negb (String.eqb l "")); [|now apply IH].
    destruct (split "|" l) as [|a [|b [|c [|d r]]]]; try now apply IH.
    destruct (py_int P c); simpl; [now apply IH|eauto].
Qed.

(** C5, the claim refuted: a line whose fields hold no delimiter, with a
    URL that begins with a blank, is read back without the blank. *)
Lemma leading_blank_not_recovered :
  delimiter_free blank_tab = true
  /\ snd (chromeCheck.getCurrentChromeTabs
            (answering (output_text [TabLine blank_tab])) empty_world)
     = Return [chromeCheck.Tab "a" "b" 1]
  /\ [chromeCheck.Tab "a" "b" 1] <> tabs_of [TabLine blank_tab].
Proof. split; [reflexivity|]. split; [vm_compute; reflexivity|discriminate]. Qed.

(** C5, as amended. When the automation layer exits with status 0 and its
    output is made of lines each ended by a newline, where a tab line is
    [url|title|index] with no bar and no newline in the URL and the title,
    a URL that does not begin with white space and an index of no more
    digits than the interpreter reads, and any other line has a number of
    fields other than three, [getCurrentChromeTabs] returns the tabs of the
    tab lines, in order, each with its URL, title and index, and drops the
    other lines. *)
Theorem tab_lines_round_trip (P : platform) (w : world) (ls : list output_line)
    (err : string) :
  Forall (fun l => well_formed_line P l = true) ls ->
  osascript P = Return (Completed 0 (output_text ls) err) ->
  chromeCheck.getCurrentChromeTabs P w = (w, Return (tabs_of ls)).
Proof.
  intros Hwf Hrun.
  unfold chromeCheck.getCurrentChromeTabs, try_except, bind, lift.
  rewrite Hrun. cbn [returncode stdout_text Z.eqb negb].
  now rewrite tabs_loop_strip_output.
Qed.

Lemma tab_lines_round_trip_witness :
  chromeCheck.getCurrentChromeTabs (answering (output_text demo_lines)) empty_world
  = (empty_world, Return (tabs_of demo_lines)).
Proof.
  apply (tab_lines_round_trip (answering (output_text demo_lines)) empty_world
           demo_lines "").
  - repeat constructor.
  - reflexivity.
Defined.

(** Neither [getCurrentChromeTabs] nor [getRecentChromeHistoryWAL]
    lets an exception out: each returns a list, and the list is empty when
    the child process timed out or could not be run, when it exited with a
    status other than 0, when a line could not be read, when the store is
    not there, when SQLite raised (an operational error or any other), and
    when a row could not be converted. *)
Lemma tab_lister_and_direct_read_return (P : platform) (limit : Z) (w : world) :
  snd (chromeCheck.getCurrentChromeTabs P w) =
    Return
      match osascript P with
      | Return result =>
          if returncode result =? 0
          then match chromeCheck.tabs_loop P (split "010" (strip (stdout_text result))) [] with
               | Return tabs => tabs
               | Raise _ => []
               end
          else []
      | Raise _ => []
      end
  /\ snd (chromeHistory.getRecentChromeHistoryWAL P limit w) =
    Return
      (if bool_decide (is_Some (files w !! history_path P)) then
         match snd (sqlite3_fetchall P (files w) (chromeHistory.db_uri P) true
                      chromeHistory.wal_query limit) with
         | Return rows =>
             match chromeHistory.wal_loop P rows [] with
             | Return history => history
             | Raise _ => []
             end
         | Raise _ => []
         end
       else []).
Proof. split; [apply tabs_returns | apply wal_returns]. Qed.

(** C6, at the failing input. The scratch copy was left by another user and
    can be neither overwritten nor removed.  Copying the store raises, the
    handler prints its line, and its own [os.remove] raises in turn: that
    exception leaves [getRecentChromeHistoryCopy], which returns no list. *)
Theorem copy_cleanup_failure_escapes :
  let run := chromeHistory.getRecentChromeHistoryCopy foreign_scratch 10 foreign_scratch_world in
  snd run = Raise (Exn PermissionError "/tmp/chrome_history_copy.db")
  /\ stdout (fst run)
     = [LineExn "Error reading Chrome history: "
          (Exn PermissionError "/tmp/chrome_history_copy.db")]
  /\ files (fst run) = files foreign_scratch_world.
Proof. vm_compute. repeat split. Qed.

(** C10. When a line that is not empty splits into three fields and the
    third is not an integer, [getCurrentChromeTabs] returns the empty list,
    whatever the other lines hold. *)
Theorem bad_window_index_discards_all (P : platform) (w : world) (result : completed)
    (line part0 part1 part2 : string) (e : exn) :
  osascript P = Return result ->
  returncode result = 0 ->
  In line (split "010" (strip (stdout_text result))) ->
  line <> EmptyString ->
  split "|" line = [part0; part1; part2] ->
  py_int P part2 = Raise e ->
  snd (chromeCheck.getCurrentChromeTabs P w) = Return [].
Proof.
  intros Hrun Hcode Hin Hne Hsplit Hint.
  rewrite tabs_returns, Hrun, Hcode. cbn [Z.eqb].
  destruct (tabs_loop_traverse_raises P _ [] _ _ _ _ _ Hin Hne Hsplit Hint) as [e' ->].
  reflexivity.
Qed.

Lemma bad_window_index_discards_all_witness :
  snd (chromeCheck.getCurrentChromeTabs (answering bad_index_text) empty_world) = Return [].
Proof.
  apply (bad_window_index_discards_all (answering bad_index_text) empty_world
           (Completed 0 bad_index_text "")
           "https://example.com/|Other|two" "https://example.com/" "Other" "two"
           (invalid_literal "two")).
  - reflexivity.
  - reflexivity.
  - vm_compute. right. left. reflexivity.
  - discriminate.
  - reflexivity.
  - reflexivity.
Defined.

(** * Further properties *)

(** ** The entries the history reader builds *)

Lemma read_by_entry (P : platform) (limit : Z) (w : world) (rows : list row)
    (history : list chromeHistory.entry) (i : nat) (e : chromeHistory.entry) :
  read_by P limit w rows history ->
  history !! i = Some e ->
  exists r, rows !! i = Some r /\ chromeHistory.wal_entry P r = Return e.
Proof.
  intros [[Hrows Hrun]|[Hrows Hrun]] He.
  - now apply (wal_history_entry P limit w rows history).
  - destruct (copy_history_entry _ _ _ _ _ _ _ Hrows Hrun He) as (r & Hr & Hentry).
    exists r. now rewrite <- copy_entry_wal_entry.
Qed.

Lemma read_by_loop (P : platform) (limit : Z) (w : world) (rows : list row)
    (history : list chromeHistory.entry) :
  read_by P limit w rows history ->
  history = [] \/ chromeHistory.wal_loop P rows [] = Return history.
Proof.
  intros [[Hrows Hrun]|[Hrows Hrun]].
  - rewrite wal_returns, Hrows in Hrun. inversion Hrun as [Hh]; clear Hrun.
    destruct (bool_decide _); [|now left].
    destruct (chromeHistory.wal_loop P rows []); simpl; auto.
  - destruct (copy_returns _ _ _ _ _ Hrows Hrun) as [->|Hl]; [now left|right].
    now rewrite <- copy_loop_wal_loop.
Qed.

Lemma wal_entry_fields (P : platform) (r : row) (e : chromeHistory.entry) :
  chromeHistory.wal_entry P r = Return e ->
  chromeHistory.url e = row_url r
  /\ chromeHistory.visit_count e = row_visit_count r
  /\ chromeHistory.title e = py_or (row_title r) no_title
  /\ (if truthy (row_visit_duration r)
      then exists q, truediv_int (row_visit_duration r) 1000000 = Return q
                     /\ chromeHistory.duration_seconds e = PyFloat q
      else chromeHistory.duration_seconds e = PyInt 0).
Proof.
  destruct r as [u t c ct d]; unfold chromeHistory.wal_entry; simpl.
  destruct (chromeHistory.wal_visit_datetime P ct) as [v|x]; simpl; [|discriminate].
  destruct (truthy d).
  - destruct (truediv_int d 1000000) as [q|x]; simpl; [|discriminate].
    intros H; inversion H; simpl. repeat split. now exists q.
  - simpl. intros H; inversion H; simpl. repeat split.
Qed.

(** X1. In the list either strategy returns, an entry carries the title of
    its row, except that a missing or empty title is replaced by
    "(No title)". *)
Theorem missing_title_defaults (P : platform) (limit : Z) (w : world)
    (rows : list row) (history : list chromeHistory.entry) (i : nat) (r : row)
    (e : chromeHistory.entry) :
  read_by P limit w rows history ->
  rows !! i = Some r ->
  history !! i = Some e ->
  (row_title r = PyNone \/ row_title r = PyStr "" ->
     chromeHistory.title e = PyStr "(No title)")
  /\ (forall s, s <> EmptyString -> row_title r = PyStr s ->
        chromeHistory.title e = PyStr s).
Proof.
  intros Hread Hr He.
  destruct (read_by_entry _ _ _ _ _ _ _ Hread He) as (r' & Hr' & Hentry).
  assert (r' = r) by congruence; subst r'.
  destruct (wal_entry_fields _ _ _ Hentry) as (_ & _ & Htitle & _).
  rewrite Htitle. split.
  - intros [-> | ->]; reflexivity.
  - intros s Hs ->. unfold py_or, truthy.
    apply String.eqb_neq in Hs. now rewrite Hs.
Qed.

Lemma missing_title_defaults_witness :
  (row_title (Row (PyStr "https://example.org/") PyNone (PyInt 1) (PyInt 0) PyNone) = PyNone
   \/ row_title (Row (PyStr "https://example.org/") PyNone (PyInt 1) (PyInt 0) PyNone)
      = PyStr "" ->
     chromeHistory.title
       (chromeHistory.Entry (PyStr "https://example.org/") no_title None (PyInt 1) (PyInt 0))
     = PyStr "(No title)")
  /\ (forall s, s <> EmptyString ->
        row_title (Row (PyStr "https://example.org/") PyNone (PyInt 1) (PyInt 0) PyNone)
        = PyStr s ->
        chromeHistory.title
          (chromeHistory.Entry (PyStr "https://example.org/") no_title None (PyInt 1) (PyInt 0))
        = PyStr s).
Proof.
  apply (missing_title_defaults healthy_store 10 demo_world demo_rows demo_history 1).
  - left. split; vm_compute; reflexivity.
  - reflexivity.
  - reflexivity.
Defined.

(** X2. In the list either strategy returns, the duration of an entry is
    the integer 0 when the duration column of its row is null or zero, and
    otherwise the float quotient of the column by 1,000,000. *)
Theorem duration_in_seconds (P : platform) (limit : Z) (w : world)
    (rows : list row) (history : list chromeHistory.entry) (i : nat) (r : row)
    (e : chromeHistory.entry) :
  read_by P limit w rows history ->
  rows !! i = Some r ->
  history !! i = Some e ->
  (row_visit_duration r = PyNone \/ row_visit_duration r = PyInt 0 ->
     chromeHistory.duration_seconds e = PyInt 0)
  /\ (forall d, d <> 0 -> row_visit_duration r = PyInt d ->
        exists q, int_truediv d 1000000 = Return q
                  /\ chromeHistory.duration_seconds e = PyFloat q).
Proof.
  intros Hread Hr He.
  destruct (read_by_entry _ _ _ _ _ _ _ Hread He) as (r' & Hr' & Hentry).
  assert (r' = r) by congruence; subst r'.
  destruct (wal_entry_fields _ _ _ Hentry) as (_ & _ & _ & Hdur).
  split.
  - intros [H0|H0]; rewrite H0 in Hdur; exact Hdur.
  - intros d Hd H0. rewrite H0 in Hdur. unfold truthy in Hdur.
    apply Z.eqb_neq in Hd. rewrite Hd in Hdur. exact Hdur.
Qed.

Lemma duration_in_seconds_witness :
  (row_visit_duration (Row (PyStr "https://www.youtube.com/watch") (PyStr "Video") (PyInt 3)
                           (PyInt 13350000000000000) (PyInt 2500000)) = PyNone
   \/ row_visit_duration (Row (PyStr "https://www.youtube.com/watch") (PyStr "Video") (PyInt 3)
                              (PyInt 13350000000000000) (PyInt 2500000)) = PyInt 0 ->
     chromeHistory.duration_seconds
       (chromeHistory.Entry (PyStr "https://www.youtube.com/watch") (PyStr "Video")
          (Some demo_visit) (PyInt 3) (PyFloat (S754_finite false 5629499534213120 (-51))))
     = PyInt 0)
  /\ (forall d, d <> 0 ->
        row_visit_duration (Row (PyStr "https://www.youtube.com/watch") (PyStr "Video")
                                (PyInt 3) (PyInt 13350000000000000) (PyInt 2500000))
        = PyInt d ->
        exists q, int_truediv d 1000000 = Return q
                  /\ chromeHistory.duration_seconds
                       (chromeHistory.Entry (PyStr "https://www.youtube.com/watch")
                          (PyStr "Video") (Some demo_visit) (PyInt 3)
                          (PyFloat (S754_finite false 5629499534213120 (-51))))
                     = PyFloat q).
Proof.
  apply (duration_in_seconds healthy_store 10 demo_world demo_rows demo_history 0).
  - right. split; [intros fs|]; vm_compute; reflexivity.
  - reflexivity.
  - reflexivity.
Defined.

(** X3. The list either strategy returns is empty or has one entry for each
    row of the query, in the order of the rows, each with the URL and the
    visit count of its row unchanged. *)
Theorem all_rows_in_order (P : platform) (limit : Z) (w : world)
    (rows : list row) (history : list chromeHistory.entry) :
  read_by P limit w rows history ->
  history = []
  \/ (length history = length rows
      /\ forall i r, rows !! i = Some r ->
           exists e, history !! i = Some e
                     /\ chromeHistory.url e = row_url r
                     /\ chromeHistory.visit_count e = row_visit_count r).
Proof.
  intros Hread. destruct (read_by_loop _ _ _ _ _ Hread) as [->|Hloop]; [now left|right].
  rewrite wal_loop_traverse in Hloop.
  destruct (traverse (chromeHistory.wal_entry P) rows) as [es|x] eqn:Ht; [|discriminate].
  simpl in Hloop. inversion Hloop; subst history; clear Hloop.
  split; [now apply (traverse_length (chromeHistory.wal_entry P))|].
  intros i r Hr.
  destruct (traverse_lookup _ _ _ _ _ Ht Hr) as (e & He & Hentry).
  exists e. split; [exact He|].
  destruct (wal_entry_fields _ _ _ Hentry) as (Hu & Hc & _). now split.
Qed.

Lemma all_rows_in_order_witness :
  demo_history = []
  \/ (length demo_history = length demo_rows
      /\ forall i r, demo_rows !! i = Some r ->
           exists e, demo_history !! i = Some e
                     /\ chromeHistory.url e = row_url r
                     /\ chromeHistory.visit_count e = row_visit_count r).
Proof.
  apply (all_rows_in_order healthy_store 10 demo_world).
  left. split; vm_compute; reflexivity.
Defined.

Lemma text_time_raises (P : platform) (r : row) (s : string) :
  row_visit_time r = PyStr s -> s <> EmptyString ->
  chromeHistory.wal_entry P r
  = Raise (Exn TypeError "unsupported operand type(s) for /").
Proof.
  destruct r as [u t c ct d]; simpl. intros -> Hs.
  unfold chromeHistory.wal_entry, chromeHistory.wal_visit_datetime, truthy.
  apply String.eqb_neq in Hs. now rewrite Hs.
Qed.

(** X4. One row whose timestamp column holds non-empty text costs the whole
    list: the division raises [TypeError] inside the loop, and both
    strategies (the copy strategy when removing its scratch copy does not
    fail) return the empty list, whatever the other rows are. *)
Theorem one_bad_row_loses_all (P : platform) (limit : Z) (w : world)
    (rows : list row) (r : row) (s : string) :
  In r rows ->
  row_visit_time r = PyStr s ->
  s <> EmptyString ->
  (forall fs database uri sql,
      snd (sqlite3_fetchall P fs database uri sql limit) = Return rows) ->
  (forall fs p, remove_fault P fs p = None) ->
  snd (chromeHistory.getRecentChromeHistoryWAL P limit w) = Return []
  /\ snd (chromeHistory.getRecentChromeHistoryCopy P limit w) = Return [].
Proof.
  intros Hin Htime Hs Hrows Hremove.
  pose proof (text_time_raises P r s Htime Hs) as Hraise.
  destruct (traverse_raises (chromeHistory.wal_entry P) rows r _ Hin Hraise) as [x Hx].
  assert (Hloop : chromeHistory.wal_loop P rows [] = Raise x)
    by now rewrite wal_loop_traverse, Hx.
  split.
  - rewrite wal_returns, Hrows, Hloop. now destruct (bool_decide _).
  - destruct (copy_returns_a_list P limit w Hremove) as [history Hrun].
    destruct (copy_returns P limit w rows history (fun fs => Hrows fs _ _ _) Hrun)
      as [->|Hl]; [exact Hrun|].
    rewrite copy_loop_wal_loop, Hloop in Hl. discriminate.
Qed.

Lemma one_bad_row_loses_all_witness :
  snd (chromeHistory.getRecentChromeHistoryWAL text_time_store 10 demo_world) = Return []
  /\ snd (chromeHistory.getRecentChromeHistoryCopy text_time_store 10 demo_world) = Return [].
Proof.
  apply (one_bad_row_loses_all text_time_store 10 demo_world
           (demo_rows ++ [text_time_row]) text_time_row "yesterday").
  - vm_compute. tauto.
  - reflexivity.
  - discriminate.
  - reflexivity.
  - reflexivity.
Defined.

(** ** The store and the scratch files *)

(** X5. When the store is not there, both strategies print "Chrome history
    database not found" and return the empty list without consulting the
    database engine or touching a file, whatever the machine. *)
Theorem missing_store_is_reported (P : platform) (limit : Z) (w : world) :
  files w !! history_path P = None ->
  chromeHistory.getRecentChromeHistoryWAL P limit w
  = (World (files w) (stdout w ++ [Line "Chrome history database not found"]), Return [])
  /\ chromeHistory.getRecentChromeHistoryCopy P limit w
     = (World (files w) (stdout w ++ [Line "Chrome history database not found"]), Return []).
Proof.
  intros Hmissing.
  assert (Hb : bool_decide (is_Some (files w !! history_path P)) = false).
  { apply bool_decide_eq_false. rewrite Hmissing. now intros [? ?]. }
  unfold chromeHistory.getRecentChromeHistoryWAL, chromeHistory.getRecentChromeHistoryCopy,
    bind, os_path_exists. rewrite Hb. split; reflexivity.
Qed.

Lemma missing_store_is_reported_witness :
  chromeHistory.getRecentChromeHistoryWAL healthy_store 10 empty_world
  = (World (files empty_world)
       (stdout empty_world ++ [Line "Chrome history database not found"]), Return [])
  /\ chromeHistory.getRecentChromeHistoryCopy healthy_store 10 empty_world
     = (World (files empty_world)
          (stdout empty_world ++ [Line "Chrome history database not found"]), Return []).
Proof.
  apply (missing_store_is_reported healthy_store 10 empty_world).
  reflexivity.
Defined.

(** X6. On a machine without file faults whose database engine leaves the
    files alone, a call of the copy strategy that returns the converted
    rows leaves no trace: nothing is printed, neither scratch file exists
    afterwards (also when one was there before the call), and every other
    file, the store included, is as it was. *)
Theorem copy_leaves_no_trace (P : platform) (limit : Z) (w : world) (data : string)
    (rows : list row) (history : list chromeHistory.entry) :
  files w !! history_path P = Some data ->
  no_file_fault P ->
  sqlite_keeps_files P ->
  snd (sqlite3_fetchall P (scratch_files P (files w) data) chromeHistory.temp_path false
         chromeHistory.copy_query limit) = Return rows ->
  chromeHistory.copy_loop P rows [] = Return history ->
  let run := chromeHistory.getRecentChromeHistoryCopy P limit w in
  snd run = Return history
  /\ stdout (fst run) = stdout w
  /\ absent chromeHistory.temp_path (fst run)
  /\ absent chromeHistory.temp_journal (fst run)
  /\ forall p, p <> chromeHistory.temp_path -> p <> chromeHistory.temp_journal ->
       files (fst run) !! p = files w !! p.
Proof.
  intros Hdata Hfault Hkeeps Hrows Hloop. cbv zeta.
  rewrite (copy_run_no_fault P limit w data Hdata Hfault Hkeeps), Hrows.
  cbn [result_bind]. rewrite Hloop. cbn [fst snd files stdout]. unfold absent. cbn [files].
  repeat split.
  - rewrite lookup_delete_ne by (symmetry; apply temp_journal_ne). apply lookup_delete_eq.
  - apply lookup_delete_eq.
  - intros p H1 H2. now rewrite !lookup_delete_ne by congruence.
Qed.

Lemma copy_leaves_no_trace_witness :
  let run := chromeHistory.getRecentChromeHistoryCopy healthy_store 10 demo_world in
  snd run = Return demo_history
  /\ stdout (fst run) = stdout demo_world
  /\ absent chromeHistory.temp_path (fst run)
  /\ absent chromeHistory.temp_journal (fst run)
  /\ forall p, p <> chromeHistory.temp_path -> p <> chromeHistory.temp_journal ->
       files (fst run) !! p = files demo_world !! p.
Proof.
  apply (copy_leaves_no_trace healthy_store 10 demo_world "store" demo_rows demo_history).
  - reflexivity.
  - split; intros; reflexivity.
  - intros fs database uri sql limit. reflexivity.
  - reflexivity.
  - vm_compute. reflexivity.
Defined.

(** Two computations that agree step by step agree. *)
Lemma bind_ext {A B} (m m' : M A) (k k' : A -> M B) (w : world) :
  m w = m' w -> (forall a w', k a w' = k' a w') -> bind m k w = bind m' k' w.
Proof.
  intros Hm Hk. unfold bind. rewrite Hm.
  destruct (m' w) as [w' [a|e]]; [apply Hk|reflexivity].
Qed.

Lemma try_except_ext {A} (m m' : M A) (h h' : exn -> M A) (w : world) :
  m w = m' w -> (forall e w', h e w' = h' e w') ->
  try_except m h w = try_except m' h' w.
Proof.
  intros Hm Hh. unfold try_except. rewrite Hm.
  destruct (m' w) as [w' [a|e]]; [reflexivity|apply Hh].
Qed.

Lemma copy_loop_with_engine (P : platform) engine (rows : list row)
    (history : list chromeHistory.entry) :
  chromeHistory.copy_loop (with_engine P engine) rows history
  = chromeHistory.copy_loop P rows history.
Proof.
  revert history; induction rows as [|r rows IH]; intros history; [reflexivity|].
  cbn [chromeHistory.copy_loop].
  change (chromeHistory.copy_entry (with_engine P engine) r)
    with (chromeHistory.copy_entry P r).
  destruct (chromeHistory.copy_entry P r); cbn [result_bind]; [apply IH|reflexivity].
Qed.

(** X7. The copy strategy consults the database engine for the scratch copy
    only: whatever the engine would do with any other database, the store
    included, makes no difference to the list returned, to the files left
    behind or to what is printed. *)
Theorem copy_opens_only_the_scratch_copy (P : platform) engine (limit : Z) (w : world) :
  (forall fs, engine fs chromeHistory.temp_path false chromeHistory.copy_query limit
              = sqlite3_fetchall P fs chromeHistory.temp_path false
                  chromeHistory.copy_query limit) ->
  chromeHistory.getRecentChromeHistoryCopy (with_engine P engine) limit w
  = chromeHistory.getRecentChromeHistoryCopy P limit w.
Proof.
  intros Hengine. unfold chromeHistory.getRecentChromeHistoryCopy.
  apply bind_ext; [reflexivity|]. intros found w1.
  destruct found; cbn [negb]; [|reflexivity].
  apply try_except_ext; [|reflexivity].
  unfold chromeHistory.copy_try.
  apply bind_ext; [reflexivity|]. intros _ w2.
  apply bind_ext; [reflexivity|]. intros has_journal w3.
  apply bind_ext; [destruct has_journal; reflexivity|]. intros _ w4.
  apply bind_ext.
  { unfold sqlite3_query. cbn [sqlite3_fetchall with_engine]. now rewrite Hengine. }
  intros rows w5.
  apply bind_ext; [unfold lift; now rewrite copy_loop_with_engine|]. intros history w6.
  reflexivity.
Qed.

Lemma copy_opens_only_the_scratch_copy_witness :
  chromeHistory.getRecentChromeHistoryCopy (with_engine healthy_store scratch_only_engine)
    10 demo_world
  = chromeHistory.getRecentChromeHistoryCopy healthy_store 10 demo_world.
Proof.
  apply (copy_opens_only_the_scratch_copy healthy_store scratch_only_engine 10 demo_world).
  intros fs. reflexivity.
Defined.

(** The direct strategy on the same machine: the engine, handed the store,
    wipes the files and raises. *)
Lemma scratch_only_engine_refuses_the_store :
  let run := chromeHistory.getRecentChromeHistoryWAL
               (with_engine healthy_store scratch_only_engine) 10 demo_world in
  snd run = Return []
  /\ files (fst run) !! history_path healthy_store = None.
Proof. vm_compute. split; reflexivity. Qed.



(** X9. When the store is there and the database engine raises, the direct
    strategy prints one line and returns the empty list: the line starts
    "Database error (Chrome might be using it): " for an operational error
    (a locked store) and "Error reading Chrome history: " for any other
    exception. *)
Theorem wal_failure_is_reported (P : platform) (limit : Z) (w : world)
    (fs : gmap string string) (e : exn) :
  is_Some (files w !! history_path P) ->
  sqlite3_fetchall P (files w) (chromeHistory.db_uri P) true chromeHistory.wal_query limit
  = (fs, Raise e) ->
  chromeHistory.getRecentChromeHistoryWAL P limit w
  = (World fs
       (stdout w ++ [LineExn (if isinstance e OperationalError
                              then "Database error (Chrome might be using it): "
                              else "Error reading Chrome history: ") e]),
     Return []).
Proof.
  intros Hstore Hsql.
  unfold chromeHistory.getRecentChromeHistoryWAL, bind at 1, os_path_exists at 1.
  rewrite bool_decide_eq_true_2 by exact Hstore. cbn [negb].
  unfold try_except, bind at 1, sqlite3_query. rewrite Hsql.
  now destruct (isinstance e OperationalError).
Qed.

Lemma wal_failure_is_reported_witness :
  chromeHistory.getRecentChromeHistoryWAL locked_store 10 demo_world
  = (World (files demo_world)
       (stdout demo_world
          ++ [LineExn (if isinstance (Exn OperationalError "database is locked") OperationalError
                       then "Database error (Chrome might be using it): "
                       else "Error reading Chrome history: ")
                (Exn OperationalError "database is locked")]),
     Return []).
Proof.
  apply (wal_failure_is_reported locked_store 10 demo_world).
  - eexists. reflexivity.
  - reflexivity.
Defined.

(** ** The distraction check of the history script *)

Lemma any_domain_in_not_text (u : pyval) (d : string) (domains : list string) :
  (forall s, u <> PyStr s) ->
  exists x, chromeHistory.any_domain_in u (d :: domains) = Raise x
            /\ exn_class_of x = TypeError.
Proof.
  intros Hu. destruct u; simpl; eauto. now destruct (Hu s).
Qed.

Lemma recent_distractions_raise_class (history : list chromeHistory.entry) (x : exn) :
  chromeHistory.recent_distractions history = Raise x -> exn_class_of x = TypeError.
Proof.
  induction history as [|e history IH]; cbn [chromeHistory.recent_distractions];
    [discriminate|].
  destruct (chromeHistory.url e) as [|z|f|s|b].
  2-3,5: intros H; inversion H; reflexivity.
  - intros H; inversion H; reflexivity.
  - rewrite any_domain_in_text. cbn [result_bind].
    destruct (chromeHistory.recent_distractions history) as [kept|y]; cbn [result_bind].
    + discriminate.
    + intros H; inversion H; subst. now apply IH.
Qed.

(** X10. The distraction check of the history script fails with
    [TypeError] as soon as one entry has a URL that is not text (a NULL
    column, a number, a BLOB): the test [domain in entry['url']] raises,
    outside any handler. *)
Theorem non_text_url_breaks_the_check (history : list chromeHistory.entry)
    (e : chromeHistory.entry) :
  In e history ->
  (forall s, chromeHistory.url e <> PyStr s) ->
  exists x, chromeHistory.recent_distractions history = Raise x
            /\ exn_class_of x = TypeError.
Proof.
  intros Hin Hurl.
  assert (Hraise : exists x, chromeHistory.recent_distractions history = Raise x).
  { induction history as [|e' history IH]; [contradiction|].
    cbn [chromeHistory.recent_distractions]. destruct Hin as [->|Hin].
    - destruct (any_domain_in_not_text (chromeHistory.url e) "youtube.com"
                  ["reddit.com"; "twitter.com"; "instagram.com"] Hurl) as (x & Hx & _).
      change (chromeHistory.any_domain_in (chromeHistory.url e)
                chromeHistory.distracting_domains = Raise x) in Hx.
      rewrite Hx. simpl. eauto.
    - destruct (chromeHistory.any_domain_in _ _); cbn [result_bind]; [|eauto].
      destruct (IH Hin) as [x ->]. simpl. eauto. }
  destruct Hraise as [x Hx]. exists x. split; [exact Hx|].
  now apply (recent_distractions_raise_class history).
Qed.

Lemma non_text_url_breaks_the_check_witness :
  exists x, chromeHistory.recent_distractions (demo_history ++ [null_url_entry]) = Raise x
            /\ exn_class_of x = TypeError.
Proof.
  apply (non_text_url_breaks_the_check (demo_history ++ [null_url_entry]) null_url_entry).
  - vm_compute. tauto.
  - intros s. discriminate.
Defined.

Lemma recent_distractions_kept (history kept : list chromeHistory.entry)
    (e : chromeHistory.entry) :
  chromeHistory.recent_distractions history = Return kept ->
  In e kept ->
  In e history
  /\ exists s, chromeHistory.url e = PyStr s
               /\ existsb (fun d => contains d s) chromeHistory.distracting_domains = true.
Proof.
  revert kept; induction history as [|e' history IH]; intros kept;
    cbn [chromeHistory.recent_distractions].
  - intros H; inversion H; subst. contradiction.
  - destruct (chromeHistory.url e') as [|z|f|s|b] eqn:Eurl; try discriminate.
    rewrite any_domain_in_text. cbn [result_bind].
    destruct (chromeHistory.recent_distractions history) as [tail|y]; cbn [result_bind];
      [|discriminate].
    destruct (existsb (fun d => contains d s) chromeHistory.distracting_domains) eqn:Ehit;
      intros H; injection H as <-.
    + intros [<-|Hin].
      * split; [now left|]. exists s. now split.
      * destruct (IH tail eq_refl Hin) as [Hh Hs]. split; [now right|exact Hs].
    + intros Hin. destruct (IH tail eq_refl Hin) as [Hh Hs]. split; [now right|exact Hs].
Qed.

Lemma next_domain_in_first (s : string) (domains : list string) :
  existsb (fun d => contains d s) domains = true ->
  exists d before after,
    next_domain_in (PyStr s) domains = Return d
    /\ domains = before ++ d :: after
    /\ Substring d s
    /\ forall d', In d' before -> ~ Substring d' s.
Proof.
  induction domains as [|d domains IH]; cbn [existsb next_domain_in chromeHistory.domain_in
                                            result_bind]; [discriminate|].
  destruct (contains d s) eqn:Ed.
  - intros _. exists d, [], domains. repeat split.
    + now apply contains_spec.
    + contradiction.
  - cbn [orb]. intros Hrest.
    destruct (IH Hrest) as (d0 & before & after & Hnext & -> & Hsub & Hfirst).
    exists d0, (d :: before), after. repeat split; auto.
    intros d' [<-|Hin]; [|now apply Hfirst].
    intros Hd. apply contains_spec in Hd. congruence.
Qed.

(** X11. For every entry the distraction check kept, the lookup
    [next(d for d in distracting_domains if d in entry['url'])] of the
    report finds a domain and does not raise [StopIteration]: it gives the
    first of the listed domains, in the order of the list, that occurs in
    the URL. *)
Theorem kept_entry_has_a_domain (history kept : list chromeHistory.entry)
    (e : chromeHistory.entry) :
  chromeHistory.recent_distractions history = Return kept ->
  In e kept ->
  exists s d before after,
    chromeHistory.url e = PyStr s
    /\ distraction_domain e = Return d
    /\ chromeHistory.distracting_domains = before ++ d :: after
    /\ Substring d s
    /\ forall d', In d' before -> ~ Substring d' s.
Proof.
  intros Hrun Hin.
  destruct (recent_distractions_kept _ _ _ Hrun Hin) as (_ & s & Hs & Hhit).
  destruct (next_domain_in_first s _ Hhit) as (d & before & after & Hnext & Hsplit & Hsub & Hfirst).
  exists s, d, before, after. unfold distraction_domain. rewrite Hs. auto.
Qed.

Lemma kept_entry_has_a_domain_witness :
  exists s d before after,
    chromeHistory.url (chromeHistory.Entry (PyStr "https://reddit.com/r/coq") no_title None
                         (PyInt 7) (PyInt 0)) = PyStr s
    /\ distraction_domain (chromeHistory.Entry (PyStr "https://reddit.com/r/coq") no_title None
                             (PyInt 7) (PyInt 0)) = Return d
    /\ chromeHistory.distracting_domains = before ++ d :: after
    /\ Substring d s
    /\ forall d', In d' before -> ~ Substring d' s.
Proof.
  apply (kept_entry_has_a_domain demo_history
           [ chromeHistory.Entry (PyStr "https://www.youtube.com/watch") (PyStr "Video")
               (Some demo_visit) (PyInt 3) (PyFloat (S754_finite false 5629499534213120 (-51)));
             chromeHistory.Entry (PyStr "https://reddit.com/r/coq") no_title None
               (PyInt 7) (PyInt 0) ]).
  - vm_compute. reflexivity.
  - right. left. reflexivity.
Defined.

(** ** The recency formatter within a day and ahead of the clock *)

(** X12. For a visit less than 24 hours before the clock reading,
    [formatTimeDelta] reports the whole seconds elapsed when they are under
    60, the whole minutes when they are under 3600, and the whole hours
    otherwise; fractions of a second are dropped. *)
Theorem formatTimeDelta_within_a_day (now v : datetime) :
  0 <= micros now - micros v < us_per_day ->
  chromeHistory.formatTimeDelta now (Some v)
  = let elapsed := (micros now - micros v) / us_per_second in
    if elapsed <? 60 then (str_of_Z elapsed ++ " seconds ago")%string
    else if elapsed <? 3600 then (str_of_Z (elapsed / 60) ++ " minutes ago")%string
    else (str_of_Z (elapsed / 3600) ++ " hours ago")%string.
Proof.
  intros Hrange. cbv zeta. unfold us_per_day, us_per_second in *.
  set (d := micros now - micros v) in *.
  assert (Hnow : now = Datetime (micros v + 0 * us_per_day + (d / 1000000) * us_per_second
                                 + d mod 1000000)).
  { destruct now as [n]. unfold us_per_day, us_per_second, d. simpl in *. f_equal.
    pose proof (Z.div_mod (n - micros v) 1000000). lia. }
  assert (Hs : 0 <= d / 1000000 < 86400).
  { split; [apply Z.div_pos; lia|apply Z.div_lt_upper_bound; lia]. }
  assert (Hus : 0 <= d mod 1000000 < 1000000) by (apply Z.mod_pos_bound; lia).
  rewrite Hnow at 1. rewrite formatTimeDelta_buckets by assumption.
  destruct (d / 1000000 <? 60); [reflexivity|].
  destruct (d / 1000000 <? 3600); reflexivity.
Qed.

Lemma formatTimeDelta_within_a_day_witness :
  chromeHistory.formatTimeDelta (later demo_visit 5400 250000) (Some demo_visit)
  = let elapsed := (micros (later demo_visit 5400 250000) - micros demo_visit)
                   / us_per_second in
    if elapsed <? 60 then (str_of_Z elapsed ++ " seconds ago")%string
    else if elapsed <? 3600 then (str_of_Z (elapsed / 60) ++ " minutes ago")%string
    else (str_of_Z (elapsed / 3600) ++ " hours ago")%string.
Proof.
  apply (formatTimeDelta_within_a_day (later demo_visit 5400 250000) demo_visit).
  vm_compute. split; [discriminate|reflexivity].
Defined.

(** X13. For a visit stamped after the clock reading, by up to 23 hours,
    [formatTimeDelta] answers "-1 days ago": the difference is normalised
    to minus one day and a seconds field of an hour or more. *)
Theorem formatTimeDelta_ahead_of_clock (now v : datetime) :
  0 < micros v - micros now <= 82800 * us_per_second ->
  chromeHistory.formatTimeDelta now (Some v) = "-1 days ago".
Proof.
  intros Hrange. unfold us_per_second in *.
  set (d := micros now - micros v + 86400000000).
  assert (Hd : 3600000000 <= d < 86400000000) by (unfold d; lia).
  assert (Hnow : now = Datetime (micros v + (-1) * us_per_day + (d / 1000000) * us_per_second
                                 + d mod 1000000)).
  { destruct now as [n]. unfold us_per_day, us_per_second, d. simpl in *. f_equal.
    pose proof (Z.div_mod (n - micros v + 86400000000) 1000000). lia. }
  assert (Hs : 3600 <= d / 1000000 < 86400).
  { split; [apply Z.div_le_lower_bound; lia|apply Z.div_lt_upper_bound; lia]. }
  assert (Hus : 0 <= d mod 1000000 < 1000000) by (apply Z.mod_pos_bound; lia).
  rewrite Hnow. rewrite formatTimeDelta_buckets by lia.
  replace (d / 1000000 <? 60) with false by (symmetry; apply Z.ltb_ge; lia).
  replace (d / 1000000 <? 3600) with false by (symmetry; apply Z.ltb_ge; lia).
  reflexivity.
Qed.

Lemma formatTimeDelta_ahead_of_clock_witness :
  chromeHistory.formatTimeDelta demo_visit (Some (later demo_visit 1 0)) = "-1 days ago".
Proof.
  apply (formatTimeDelta_ahead_of_clock demo_visit (later demo_visit 1 0)).
  vm_compute. split; [reflexivity|discriminate].
Defined.

(** ** The tab lister on other outputs *)

Lemma lstrip_all_space (s : string) : all_space s = true -> lstrip s = EmptyString.
Proof.
  unfold all_space. induction s as [|c s IH]; cbn [string_forall lstrip]; [reflexivity|].
  destruct (is_space c); [exact IH|discriminate].
Qed.

(** X14. When the automation layer exits with status 0 and writes nothing
    but white space (no window is open), [getCurrentChromeTabs] returns
    the empty list, prints nothing and raises nothing. *)
Theorem blank_output_gives_no_tabs (P : platform) (w : world) (result : completed) :
  osascript P = Return result ->
  returncode result = 0 ->
  all_space (stdout_text result) = true ->
  chromeCheck.getCurrentChromeTabs P w = (w, Return []).
Proof.
  intros Hrun Hcode Hblank.
  unfold chromeCheck.getCurrentChromeTabs, try_except, bind, lift.
  rewrite Hrun, Hcode. cbn [Z.eqb negb].
  unfold strip. now rewrite (lstrip_all_space _ Hblank).
Qed.

Lemma blank_output_gives_no_tabs_witness :
  chromeCheck.getCurrentChromeTabs (answering (" " ++ LF ++ LF)%string) empty_world
  = (empty_world, Return []).
Proof.
  apply (blank_output_gives_no_tabs (answering (" " ++ LF ++ LF)%string) empty_world
           (Completed 0 (" " ++ LF ++ LF)%string "")).
  - reflexivity.
  - reflexivity.
  - reflexivity.
Defined.

Lemma split_fields_forall (test : ascii -> bool) (sep : ascii) (s : string) :
  string_forall test s = true ->
  Forall (fun field => string_forall test field = true) (split sep s).
Proof.
  induction s as [|c s IH]; cbn [string_forall split].
  - intros _. repeat constructor.
  - rewrite andb_true_iff. intros [Hc Hs]. specialize (IH Hs).
    destruct (Ascii.eqb c sep).
    + constructor; [reflexivity|exact IH].
    + destruct (split sep s) as [|field fields]; [repeat constructor; simpl; now rewrite Hc|].
      inversion IH; subst. constructor; [|assumption].
      cbn [string_forall]. rewrite Hc. assumption.
Qed.

Lemma split_fields_free (sep : ascii) (s : string) :
  Forall (fun field => free_of sep field = true) (split sep s).
Proof.
  unfold free_of. induction s as [|c s IH]; cbn [split].
  - repeat constructor.
  - destruct (Ascii.eqb c sep) eqn:Ec.
    + constructor; [reflexivity|exact IH].
    + destruct (split sep s) as [|field fields]; [repeat constructor; simpl; now rewrite Ec|].
      inversion IH; subst. constructor; [|assumption].
      cbn [string_forall]. rewrite Ec. assumption.
Qed.

Lemma tabs_loop_delimiter_free (P : platform) (lines : list string)
    (acc tabs : list chromeCheck.tab) :
  Forall (fun line => free_of "010" line = true) lines ->
  Forall (fun t => delimiter_free t = true) acc ->
  chromeCheck.tabs_loop P lines acc = Return tabs ->
  Forall (fun t => delimiter_free t = true) tabs.
Proof.
  intros Hlines. revert acc. induction Hlines as [|line lines Hline _ IH]; intros acc Hacc;
    cbn [chromeCheck.tabs_loop].
  - intros H; inversion H; subst. exact Hacc.
  - destruct (negb (String.eqb line "")); [|now apply IH].
    pose proof (split_fields_free "|" line) as Hbar.
    pose proof (split_fields_forall _ "|" line Hline) as Hnl.
    destruct (split "|" line) as [|a [|b [|c [|d rest]]]]; try now apply IH.
    destruct (py_int P c) as [n|x]; cbn [result_bind]; [|discriminate].
    apply IH. apply Forall_app. split; [exact Hacc|].
    constructor; [|constructor].
    inversion Hbar as [|? ? Ha Hbar']; subst. inversion Hbar' as [|? ? Hb _]; subst.
    inversion Hnl as [|? ? Ha' Hnl']; subst. inversion Hnl' as [|? ? Hb' _]; subst.
    unfold delimiter_free, free_of in *. cbn [chromeCheck.url chromeCheck.title].
    now rewrite Ha, Hb, Ha', Hb'.
Qed.

(** X15. No tab [getCurrentChromeTabs] returns has a bar or a newline in
    its URL or in its title, whatever the automation layer wrote. *)
Theorem returned_fields_hold_no_delimiter (P : platform) (w : world)
    (tabs : list chromeCheck.tab) (t : chromeCheck.tab) :
  snd (chromeCheck.getCurrentChromeTabs P w) = Return tabs ->
  In t tabs ->
  delimiter_free t = true.
Proof.
  rewrite tabs_returns. intros Hrun Hin. inversion Hrun as [Htabs]; clear Hrun.
  destruct (osascript P) as [result|e]; [|subst; contradiction].
  destruct (returncode result =? 0); [|subst; contradiction].
  destruct (chromeCheck.tabs_loop P _ []) as [l|e] eqn:Hloop; cbn [or_empty] in Htabs;
    [|subst; contradiction].
  subst l.
  assert (Hall : Forall (fun t => delimiter_free t = true) tabs).
  { apply (tabs_loop_delimiter_free P _ [] tabs) in Hloop; [exact Hloop| |constructor].
    apply split_fields_free. }
  exact (proj1 (List.Forall_forall _ tabs) Hall t Hin).
Qed.

Lemma returned_fields_hold_no_delimiter_witness :
  delimiter_free (chromeCheck.Tab "https://example.org/" "" 2) = true.
Proof.
  apply (returned_fields_hold_no_delimiter (answering (output_text demo_lines)) empty_world
           (tabs_of demo_lines)).
  - vm_compute. reflexivity.
  - right. left. reflexivity.
Defined.

Lemma split_length_app (sep : ascii) (a b : string) :
  length (split sep (a ++ String sep b)%string)
  = (length (split sep a) + length (split sep b))%nat.
Proof.
  induction a as [|c a IH].
  - change (EmptyString +:+ String sep b) with (String sep b).
    rewrite split_length_String, Ascii.eqb_refl. reflexivity.
  - change (String c a +:+ String sep b) with (String c (a +:+ String sep b)).
    rewrite !split_length_String, IH. now destruct (Ascii.eqb c sep).
Qed.

Lemma split_length_not_free (sep : ascii) (s : string) :
  free_of sep s = false -> (2 <= length (split sep s))%nat.
Proof.
  unfold free_of. induction s as [|c s IH]; cbn [string_forall]; [discriminate|].
  rewrite split_length_String. destruct (Ascii.eqb c sep); cbn [negb andb].
  - intros _. destruct (split sep s) eqn:E; [now apply split_nonempty in E|simpl; lia].
  - exact IH.
Qed.

Lemma string_append_assoc (a b c : string) :
  ((a ++ b) ++ c)%string = (a ++ (b ++ c))%string.
Proof.
  induction a as [|x a IH]; [reflexivity|].
  change (String x a +:+ b) with (String x (a +:+ b)).
  change (String x (a +:+ b) +:+ c) with (String x ((a +:+ b) +:+ c)).
  now rewrite IH.
Qed.

Lemma output_text_app (before after : list output_line) :
  output_text (before ++ after) = (output_text before ++ output_text after)%string.
Proof.
  induction before as [|l before IH]; [reflexivity|].
  cbn [app output_text]. now rewrite IH, !string_append_assoc.
Qed.

Lemma tabs_of_app (before after : list output_line) :
  tabs_of (before ++ after) = tabs_of before ++ tabs_of after.
Proof.
  induction before as [|[t|s] before IH]; cbn [app tabs_of]; [reflexivity| |exact IH].
  now rewrite IH.
Qed.

(** X16. A tab whose title holds a bar is dropped without a word: its line
    splits into more than three fields, and [getCurrentChromeTabs] returns
    the tabs of the other well-formed lines only, in order, printing
    nothing. *)
Theorem title_with_bar_drops_the_tab (P : platform) (w : world)
    (before after : list output_line) (t : chromeCheck.tab) (err : string) :
  Forall (fun l => well_formed_line P l = true) before ->
  Forall (fun l => well_formed_line P l = true) after ->
  free_of "|" (chromeCheck.url t) = true ->
  free_of "010" (chromeCheck.url t) = true ->
  free_of "010" (chromeCheck.title t) = true ->
  free_of "|" (chromeCheck.title t) = false ->
  osascript P = Return (Completed 0 (output_text (before ++ TabLine t :: after)) err) ->
  chromeCheck.getCurrentChromeTabs P w = (w, Return (tabs_of before ++ tabs_of after)).
Proof.
  intros Hbefore Hafter Hurl Hurl' Htitle' Htitle Hrun.
  assert (Hother : well_formed_line P (OtherLine (tab_line t)) = true).
  { cbn [well_formed_line]. apply andb_true_iff. split.
    - unfold tab_line, free_of in *. rewrite !string_forall_app.
      repeat (apply andb_true_iff; split); try assumption; try reflexivity.
      now apply (str_of_Z_free _ "010").
    - apply negb_true_iff, Nat.eqb_neq. unfold tab_line. rewrite !append_char.
      rewrite !split_length_app.
      pose proof (split_length_not_free _ _ Htitle).
      rewrite (split_free "|" (chromeCheck.url t)) by exact Hurl.
      destruct (split "|" (str_of_Z (chromeCheck.window t))) eqn:E;
        [now apply split_nonempty in E|]. simpl. lia. }
  assert (Htext : output_text (before ++ TabLine t :: after)
                  = output_text (before ++ OtherLine (tab_line t) :: after))
    by now rewrite !output_text_app.
  assert (Hwf : Forall (fun l => well_formed_line P l = true)
                  (before ++ OtherLine (tab_line t) :: after)).
  { apply Forall_app. split; [exact Hbefore|]. now constructor. }
  unfold chromeCheck.getCurrentChromeTabs, try_except, bind, lift.
  rewrite Hrun. cbn [returncode stdout_text Z.eqb negb].
  rewrite Htext, (tabs_loop_strip_output P _ Hwf), tabs_of_app. reflexivity.
Qed.

Lemma title_with_bar_drops_the_tab_witness :
  chromeCheck.getCurrentChromeTabs
    (answering (output_text (demo_lines ++ TabLine bar_title_tab :: demo_lines))) empty_world
  = (empty_world, Return (tabs_of demo_lines ++ tabs_of demo_lines)).
Proof.
  apply (title_with_bar_drops_the_tab
           (answering (output_text (demo_lines ++ TabLine bar_title_tab :: demo_lines)))
           empty_world demo_lines demo_lines bar_title_tab "").
  - repeat constructor.
  - repeat constructor.
  - reflexivity.
  - reflexivity.
  - reflexivity.
  - reflexivity.
  - reflexivity.
Defined.

(** X17. [getCurrentChromeTabs] never changes a file and prints at most one
    line; it prints nothing exactly when the child process exited with
    status 0 and every line could be read. *)
Theorem tab_lister_effects (P : platform) (w : world) :
  files (fst (chromeCheck.getCurrentChromeTabs P w)) = files w
  /\ exists diagnostics,
       stdout (fst (chromeCheck.getCurrentChromeTabs P w)) = stdout w ++ diagnostics
       /\ (length diagnostics <= 1)%nat
       /\ (diagnostics = [] <->
           exists result tabs,
             osascript P = Return result
             /\ returncode result = 0
             /\ chromeCheck.tabs_loop P (split "010" (strip (stdout_text result))) []
                = Return tabs).
Proof.
  unfold chromeCheck.getCurrentChromeTabs, try_except, bind, lift.
  destruct (osascript P) as [result|e]; cbn [fst snd].
  - destruct (returncode result =? 0) eqn:Hcode; cbn [negb].
    + apply Z.eqb_eq in Hcode.
      destruct (chromeCheck.tabs_loop P _ []) as [tabs|e] eqn:Hloop.
      * split; [reflexivity|]. exists []. cbn [ret fst files stdout].
        rewrite app_nil_r. repeat split; [simpl; lia|eauto].
      * destruct (isinstance e TimeoutExpired); (split; [reflexivity|]); eexists;
          (split; [reflexivity|]); (split; [simpl; lia|]);
          (split; [discriminate|intros (r' & t' & Hr & _ & Hl)]);
          inversion Hr; subst r'; rewrite Hloop in Hl; discriminate.
    + apply Z.eqb_neq in Hcode. split; [reflexivity|]. eexists.
      split; [reflexivity|]. split; [simpl; lia|].
      split; [discriminate|intros (r' & t' & Hr & Hc & _)].
      inversion Hr; subst r'. contradiction.
  - destruct (isinstance e TimeoutExpired); (split; [reflexivity|]); eexists;
      (split; [reflexivity|]); (split; [simpl; lia|]);
      (split; [discriminate|intros (r' & t' & Hr & _)]); discriminate.
Qed.
